(** * Interview-evidence pipeline (app3.py): a shallow embedding

    The Python module turns two optional media uploads into transcripts,
    per-party analyses and a cross-statement comparison.  Its functions are
    embedded here as Rocq functions over an explicit world (file system,
    user-interface log, log of external calls) and a small state-and-exception
    monad that follows Python's [try] / [except] / [finally].

    Conventions.
    - A Python [str] is carried as its UTF-8 encoding in a Rocq [string]
      (one [ascii] per byte); concatenation of texts is concatenation of
      encodings.
    - The external collaborators (the [ffmpeg] executable, the mp3 decoder,
      the speech-recognition and text-generation services, the clock, the
      temporary-name generator) are fields of an environment record [Env];
      every theorem quantifies over it.  Each collaborator answers as a
      function of the request it is given.
    - Writing the upload into the temporary file, [os.path.exists] and
      [os.remove] are taken to complete; streamlit's rendering calls do not
      raise.
    - The page log holds what stays on the page, in the order of the calls:
      [st.columns] leaves an entry for the row of columns, and the elements
      placed in a column by [with col:] follow in call order.  A
      [st.spinner] is visible only while its block runs and leaves no
      entry. *)

From Stdlib Require Import ZArith NArith QArith Lia List Ascii String DecimalString.
From stdpp Require Import gmap strings list.

Local Open Scope Z_scope.

(** ** Python strings *)

Module PyStr.

Fixpoint startswith (p s : string) : bool :=
  match p, s with
  | EmptyString, _ => true
  | String a p', String b s' => Ascii.eqb a b && startswith p' s'
  | String _ _, EmptyString => false
  end.

Definition endswith (p s : string) : bool :=
  startswith (String.rev p) (String.rev s).

Fixpoint take (n : nat) (s : string) : string :=
  match n, s with
  | S k, String a s' => String a (take k s')
  | _, _ => EmptyString
  end.

Fixpoint drop (n : nat) (s : string) : string :=
  match n, s with
  | S k, String _ s' => drop k s'
  | _, _ => s
  end.

(** [s[i:j]] for indices [0 <= i], [0 <= j]. *)
Definition slice (i j : Z) (s : string) : string :=
  take (Z.to_nat (j - i)) (drop (Z.to_nat i) s).

Fixpoint occurs (c : ascii) (s : string) : bool :=
  match s with
  | EmptyString => false
  | String a s' => Ascii.eqb a c || occurs c s'
  end.

Fixpoint rfind_from (c : ascii) (s : string) (i last : Z) : Z :=
  match s with
  | EmptyString => last
  | String a s' => rfind_from c s' (i + 1) (if Ascii.eqb a c then i else last)
  end.

(** [s.rfind(c)]: the highest index of [c], or [-1]. *)
Definition rfind (c : ascii) (s : string) : Z := rfind_from c s 0 (-1).

Fixpoint all_chars (P : ascii -> bool) (s : string) : bool :=
  match s with
  | EmptyString => true
  | String a s' => P a && all_chars P s'
  end.

Fixpoint any_char (P : ascii -> bool) (s : string) : bool :=
  match s with
  | EmptyString => false
  | String a s' => P a || any_char P s'
  end.

Definition of_bytes (l : list N) : string :=
  fold_right (fun n s => String (ascii_of_N n) s) EmptyString l.

(** The code points for which [str.isspace] holds, UTF-8 encoded:
    TAB..CR, FS..US, SPACE, U+0085, U+00A0, U+1680, U+2000..U+200A,
    U+2028, U+2029, U+202F, U+205F, U+3000. *)
Definition whitespace : list string :=
  map of_bytes
    ([[9]; [10]; [11]; [12]; [13]; [28]; [29]; [30]; [31]; [32];
      [194; 133]; [194; 160]; [225; 154; 128]]
     ++ map (fun k => [226; 128; 128 + k]) [0; 1; 2; 3; 4; 5; 6; 7; 8; 9; 10]
     ++ [[226; 128; 168]; [226; 128; 169]; [226; 128; 175];
         [226; 129; 159]; [227; 128; 128]])%N.

(** Removes one leading member of [pats], if there is one. *)
Fixpoint drop_one (pats : list string) (s : string) : option string :=
  match pats with
  | [] => None
  | p :: ps =>
      if startswith p s then Some (drop (String.length p) s)
      else drop_one ps s
  end.

Fixpoint lstrip_with (pats : list string) (fuel : nat) (s : string) : string :=
  match fuel with
  | O => s
  | S k =>
      match drop_one pats s with
      | Some s' => lstrip_with pats k s'
      | None => s
      end
  end.

Definition lstrip (s : string) : string :=
  lstrip_with whitespace (String.length s) s.

(** Trailing white space is leading white space of the reversed bytes, the
    encodings read backwards. *)
Definition rstrip (s : string) : string :=
  String.rev
    (lstrip_with (map String.rev whitespace) (String.length s) (String.rev s)).

(** [s.strip()] *)
Definition strip (s : string) : string := rstrip (lstrip s).

(** [bool(s)]: a text is truthy when it is not empty. *)
Definition truthy (s : string) : bool :=
  match s with EmptyString => false | String _ _ => true end.

(** Decimal notation of a non-negative number, zero-padded on the left to
    [width] digits ([%0<width>d]). *)
Definition zero_padded (width : nat) (n : N) : string :=
  let d := NilZero.string_of_uint (N.to_uint n) in
  String.append
    (String.concat "" (repeat "0"%stdpp (width - String.length d)%nat)) d.

Definition is_digit (c : ascii) : bool :=
  (48 <=? N_of_ascii c)%N && (N_of_ascii c <=? 57)%N.

End PyStr.

(** ** [os.path] on POSIX *)

Module OsPath.
Import PyStr.

(** [posixpath.join(a, b)] *)
Definition join (a b : string) : string :=
  if startswith "/" b then b
  else if negb (truthy a) || endswith "/" a then a +:+ b
  else a +:+ "/" +:+ b.

(** [os.path.splitext(p)]: the extension starts at the last dot of the last
    path component, unless only dots precede it in that component. *)
Definition splitext (p : string) : string * string :=
  let sepIndex := rfind "/" p in
  let dotIndex := rfind "." p in
  if (dotIndex >? sepIndex)
     && any_char (fun c => negb (Ascii.eqb c ".")) (slice (sepIndex + 1) dotIndex p)
  then (take (Z.to_nat dotIndex) p, drop (Z.to_nat dotIndex) p)
  else (p, EmptyString).

End OsPath.

(** ** Exceptions and outcomes *)

(** The classes below Python's [Exception] that the program can meet. *)
Inductive exception : Type :=
| CalledProcessError (cmd : list string) (returncode : Z)
| FileNotFoundError (filename : string)
| KeyError (key : string)
| IndexError
| AttributeError (text : string)
| PermissionError (filename : string)
| OSError (text : string)
| LibraryError (text : string).
    (* any other exception raised inside the decoder or the API client *)

(** What can propagate: an [Exception], or streamlit's [StopException], which
    derives from [BaseException] and so passes through [except Exception]. *)
Inductive raised : Type :=
| Exception (e : exception)
| StopException.

Definition repr_str (s : string) : string := "'" +:+ s +:+ "'".

Definition repr_list (l : list string) : string :=
  "[" +:+ String.concat ", " (map repr_str l) +:+ "]".

(** [str(e)]; [repr] of an argument is rendered in single quotes without
    escapes. *)
Definition str (e : exception) : string :=
  match e with
  | CalledProcessError cmd rc =>
      "Command '" +:+ repr_list cmd +:+ "' returned non-zero exit status "
        +:+ NilZero.string_of_int (Z.to_int rc) +:+ "."
  | FileNotFoundError f => "[Errno 2] No such file or directory: " +:+ repr_str f
  | KeyError k => repr_str k
  | IndexError => "list index out of range"
  | AttributeError t => t
  | PermissionError f => "[Errno 13] Permission denied: " +:+ repr_str f
  | OSError t => t
  | LibraryError t => t
  end.

#[global] Instance exception_eq_dec : EqDecision exception.
Proof. solve_decision. Defined.

Inductive outcome (A : Type) : Type :=
| Return (a : A)
| Raise (e : raised).
Arguments Return {A} a.
Arguments Raise {A} e.

(** ** The world *)

Definition bytes : Type := list Byte.byte.

Record chat_request : Type := {
  model : string;
  messages : list (string * string);   (* role, content *)
  temperature : Q
}.

(** External calls, in the order they are made. *)
Inductive call : Type :=
| Subprocess (args : list string)
| DecodeMp3 (path : string)
| Transcription (model : string) (path : string) (language : string)
| ChatCompletion (request : chat_request).

(** What the page shows, in order. *)
Inductive ui_element : Type :=
| UiError (body : string)
| UiWarning (body : string)
| UiWrite (body : string)
| UiMarkdown (body : string)
| UiHtml (body : string)                       (* st.markdown(body, unsafe_allow_html=True) *)
| UiInfo (body : string)
| UiColumns (widths : list Z)
| UiFileUploader (label key : string) (types : list string)
| UiTextInput (label value : string) (disabled : bool)
| UiSelectbox (label : string) (options : list (string * string))   (* option, shown as *)
| UiButton (label : string)
| UiTextArea (label value : string) (height : Z)
| UiDownloadButton (label data file_name mime : string).

Record World : Type := {
  fs : gmap string bytes;      (* regular files: path to content *)
  tmp_drawn : nat;             (* temporary names drawn so far *)
  calls : list call;
  ui : list ui_element
}.

Definition with_fs (f : gmap string bytes -> gmap string bytes) (w : World) : World :=
  {| fs := f (fs w); tmp_drawn := tmp_drawn w; calls := calls w; ui := ui w |}.

Definition log_call (c : call) (w : World) : World :=
  {| fs := fs w; tmp_drawn := tmp_drawn w; calls := calls w ++ [c]; ui := ui w |}.

Definition show (u : ui_element) (w : World) : World :=
  {| fs := fs w; tmp_drawn := tmp_drawn w; calls := calls w; ui := ui w ++ [u] |}.

Definition draw_name (w : World) : World :=
  {| fs := fs w; tmp_drawn := S (tmp_drawn w); calls := calls w; ui := ui w |}.

(** ** The environment *)

(** How [subprocess.run] ends: the process ran and exited with a status; the
    executable was not found; or starting it raised another exception (an
    [OSError] such as [PermissionError]). *)
Inductive proc_outcome : Type :=
| Exited (returncode : Z)
| ExecutableMissing
| LaunchFailed (e : exception).

#[global] Instance proc_outcome_eq_dec : EqDecision proc_outcome.
Proof. solve_decision. Defined.

Record conversion : Type := {
  conv_status : proc_outcome;
  conv_output : option bytes      (* what the run left at the output path *)
}.

Record datetime : Type := {
  year : N; month : N; day : N; hour : N; minute : N; second : N
}.

Definition valid_datetime (d : datetime) : Prop :=
  (1 <= year d <= 9999 /\ 1 <= month d <= 12 /\ 1 <= day d <= 31 /\
   hour d <= 23 /\ minute d <= 59 /\ second d <= 59)%N.

Record Env : Type := {
  tempdir : string;                          (* tempfile.gettempdir() *)
  rng_choice : nat -> nat;                   (* draws of the name generator *)
  datetime_now : datetime;
  secrets : string -> option string;         (* st.secrets *)
  ffmpeg_version : proc_outcome;             (* ffmpeg -version *)
  ffmpeg_convert : option bytes -> conversion;
      (* ffmpeg -i <input> -q:a 0 -map a <output>, from the input file's content *)
  from_mp3 : option bytes -> exception + Z;
      (* AudioSegment.from_mp3 and len(): milliseconds *)
  transcriptions_create : string -> bytes -> string -> exception + string;
      (* model, audio, language: the transcript's text *)
  chat_completions_create : chat_request -> exception + list (option string)
      (* the contents of the response's choices *)
}.

(** ** State and exceptions *)

Definition M (S A : Type) : Type := S -> S * outcome A.

#[global] Instance M_ret (S : Type) : MRet (M S) :=
  fun A a s => (s, Return a).

#[global] Instance M_bind (S : Type) : MBind (M S) :=
  fun A B f m s =>
    match m s with
    | (s', Return a) => f a s'
    | (s', Raise e) => (s', Raise e)
    end.

Definition raise {S A : Type} (e : raised) : M S A := fun s => (s, Raise e).

Definition modify {S : Type} (f : S -> S) : M S unit := fun s => (f s, Return tt).

Definition gets {S A : Type} (f : S -> A) : M S A := fun s => (s, Return (f s)).

Definition of_result {S A : Type} (r : exception + A) : M S A :=
  match r with
  | inl e => raise (Exception e)
  | inr a => mret a
  end.

(** [if b: body] *)
Definition when {S : Type} (b : bool) (body : M S unit) : M S unit :=
  if b then body else mret tt.

(** [try: body except Exception as e: handler e] *)
Definition try_except {S A : Type} (body : M S A) (handler : exception -> M S A) : M S A :=
  fun s =>
    match body s with
    | (s', Raise (Exception e)) => handler e s'
    | r => r
    end.

(** [try: body finally: cleanup]: the cleanup runs on every exit; an exception
    of the cleanup replaces the body's outcome. *)
Definition try_finally {S A : Type} (body : M S A) (cleanup : M S unit) : M S A :=
  fun s =>
    let '(s1, r) := body s in
    match cleanup s1 with
    | (s2, Return _) => (s2, r)
    | (s2, Raise e) => (s2, Raise e)
    end.

Record MediaUpload : Type := {
  upload_name : string;       (* the declared file name, with its extension *)
  upload_data : bytes
}.

(** ** Streamlit and library primitives *)

Definition nl : string := String (ascii_of_N 10) EmptyString.

Definition st_error (body : string) : M World unit := modify (show (UiError body)).
Definition st_warning (body : string) : M World unit := modify (show (UiWarning body)).
Definition st_write (body : string) : M World unit := modify (show (UiWrite body)).
Definition st_markdown (body : string) : M World unit := modify (show (UiMarkdown body)).

Definition st_markdown_html (body : string) : M World unit := modify (show (UiHtml body)).
Definition st_info (body : string) : M World unit := modify (show (UiInfo body)).

(** [st.columns(widths)]; the columns are filled by the [with] blocks that
    follow. *)
Definition st_columns (widths : list Z) : M World unit := modify (show (UiColumns widths)).

(** The input widgets show themselves and hand back what the user entered. *)
Definition st_file_uploader (label key : string) (types : list string)
    (chosen : option MediaUpload) : M World (option MediaUpload) :=
  fun w => (show (UiFileUploader label key types) w, Return chosen).

Definition st_text_input (label value : string) (disabled : bool) : M World string :=
  fun w => (show (UiTextInput label value disabled) w, Return value).

Definition st_selectbox {A : Type} (label : string) (options : list (string * string))
    (chosen : A) : M World A :=
  fun w => (show (UiSelectbox label options) w, Return chosen).

Definition st_button (label : string) (pressed : bool) : M World bool :=
  fun w => (show (UiButton label) w, Return pressed).

Definition dq : string := String (ascii_of_N 34) EmptyString.

Definition st_text_area (label value : string) (height : Z) : M World unit :=
  modify (show (UiTextArea label value height)).

Definition st_download_button (label data file_name mime : string) : M World unit :=
  modify (show (UiDownloadButton label data file_name mime)).

(** [st.stop()] ends the script run. *)
Definition st_stop {A : Type} : M World A := raise StopException.

Definition os_path_exists (path : string) : M World bool :=
  gets (fun w => bool_decide (is_Some (fs w !! path))).

Definition os_remove (path : string) : M World unit :=
  modify (with_fs (delete path)).

(** [int(q)]: truncation towards zero. *)
Definition py_int (q : Q) : Z := Z.quot (Qnum q) (Zpos (Qden q)).

Definition str_int (z : Z) : string := NilZero.string_of_int (Z.to_int z).

Record Client : Type := { api_key : string }.

(** ** The page's fixed texts *)

(** The lines of the style sheet of [load_css]. *)
Definition css_lines : list string :=
  ["";
   "        <style>";
   "        /* Основной фон */";
   "        .stApp {";
   "            background-color: #E5E7EB;";
   "        }";
   "        ";
   "        /* Контейнеры */";
   "        .element-container, div.stButton, div.stDownloadButton {";
   "            background-color: #F3F4F6;";
   "            padding: 0.5rem;";
   "            border-radius: 0.5rem;";
   "            margin-bottom: 1rem;";
   "            box-shadow: 0 1px 3px rgba(0,0,0,0.1);";
   "        }";
   "";
   "        /* Кнопки */";
   "        .stButton>button {";
   "            width: 100%;";
   "            background-color: #1e3a8a;";
   "            color: white;";
   "            border: none;";
   "            padding: 0.75rem 1rem;";
   "            border-radius: 0.375rem;";
   "            font-weight: 500;";
   "        }";
   "        .stButton>button:hover {";
   "            background-color: #1e40af;";
   "        }";
   "";
   "        /* Заголовок */";
   "        .header-container {";
   "            display: flex;";
   "            align-items: center;";
   "            padding: 1.5rem;";
   "            background-color: #1e3a8a;";
   "            color: white;";
   "            border-radius: 0.5rem;";
   "            margin-bottom: 2rem;";
   "            box-shadow: 0 2px 4px rgba(0,0,0,0.1);";
   "        }";
   "";
   "        /* Загрузка файлов */";
   "        .uploadedFile {";
   "            border: 2px solid #D1D5DB;";
   "            border-radius: 0.5rem;";
   "            padding: 1rem;";
   "            background-color: #F9FAFB;";
   "        }";
   "";
   "        /* Текстовые области */";
   "        .stTextArea textarea {";
   "            background-color: #F9FAFB;";
   "            border: 1px solid #D1D5DB;";
   "            border-radius: 0.375rem;";
   "        }";
   "";
   "        /* Информационные блоки */";
   "        .stAlert {";
   "            background-color: #F9FAFB;";
   "            border: 1px solid #D1D5DB;";
   "            border-radius: 0.375rem;";
   "        }";
   "        ";
   "        /* Статус бар */";
   "        .stStatusWidget {";
   "            background-color: #F9FAFB;";
   "            border: 1px solid #D1D5DB;";
   "            border-radius: 0.375rem;";
   "            padding: 1rem;";
   "        }";
   "        </style>";
   "    "].

Definition css_text : string := String.concat nl css_lines.

(** The lines of the page header. *)
Definition header_lines : list string :=
  ["";
   ("        <div class=" +:+ dq +:+ "header-container" +:+ dq +:+ ">");
   ("            <h1 style=" +:+ dq +:+ "margin:0; color:white;" +:+ dq +:+ ">🛡️ Система транскрибации следственных действий</h1>");
   "        </div>";
   "    "].

Definition header_html : string := String.concat nl header_lines.

(** The lines of the page footer. *)
Definition footer_lines : list string :=
  ["";
   ("        <div style=" +:+ dq +:+ "text-align:center; padding:1rem; background-color:#F3F4F6; ");
   ("                    border-radius:0.5rem; margin-top:2rem;" +:+ dq +:+ ">");
   ("            <p style=" +:+ dq +:+ "color:#6B7280; margin:0;" +:+ dq +:+ ">");
   "                © 2024 Система автоматизированной обработки процессуальных материалов. ";
   "                Версия 1.0.0";
   "            </p>";
   "        </div>";
   "    "].

Definition footer_html : string := String.concat nl footer_lines.

Definition info_text : string :=
  "ℹ️ Все материалы обрабатываются с соблюдением требований информационной безопасности. Файлы автоматически удаляются после обработки.".

Definition media_types : list string := ["mp4"; "avi"; "mov"; "mp3"; "wav"].

Definition language_options : list (string * string) :=
  [("ru", "🇷🇺 Русский"); ("kk", "🇰🇿 Қазақ тілі"); ("en", "🇬🇧 English")].

(** *** [load_css] *)
Definition load_css : M World unit := st_markdown_html css_text.

(** ** The program *)

Section Program.

Variable E : Env.

(** tempfile's candidate names: eight characters drawn from this alphabet. *)
Definition characters : list ascii :=
  list_ascii_of_string "abcdefghijklmnopqrstuvwxyz0123456789_".

Definition random_name (k : nat) : string :=
  string_of_list_ascii
    (map (fun j => nth (rng_choice E (8 * k + j) mod 37)%nat characters "_"%char)
         (seq 0 8)).

(** [tempfile.NamedTemporaryFile(delete=False, suffix=suffix)]: creates the
    file and yields its name; the name is the one the library settles on. *)
Definition NamedTemporaryFile (suffix : string) : M World string :=
  fun w =>
    let name := OsPath.join (tempdir E) ("tmp" +:+ random_name (tmp_drawn w) +:+ suffix) in
    (with_fs (insert name []) (draw_name w), Return name).

Definition file_write (path : string) (data : bytes) : M World unit :=
  modify (with_fs (insert path data)).

(** The [ffmpeg] executable on the two command lines the program uses. *)
Definition ffmpeg (args : list string) (w : World) : World * proc_outcome :=
  if decide (args = ["-version"]) then (w, ffmpeg_version E)
  else
    match args with
    | [a1; input; a3; a4; a5; a6; output] =>
        if decide ([a1; a3; a4; a5; a6] = ["-i"; "-q:a"; "0"; "-map"; "a"]) then
          let c := ffmpeg_convert E (fs w !! input) in
          match conv_status c, conv_output c with
          | Exited rc, Some b => (with_fs (insert output b) w, Exited rc)
          | status, _ => (w, status)
          end
        else (w, Exited 1)
    | _ => (w, Exited 1)
    end.

(** [subprocess.run(["ffmpeg"] + args, check=True, capture_output=True)] *)
Definition subprocess_run_ffmpeg (args : list string) : M World unit :=
  fun w =>
    let cmd := "ffmpeg" :: args in
    let '(w', status) := ffmpeg args (log_call (Subprocess cmd) w) in
    match status with
    | Exited 0 => (w', Return tt)
    | Exited rc => (w', Raise (Exception (CalledProcessError cmd rc)))
    | ExecutableMissing => (w', Raise (Exception (FileNotFoundError "ffmpeg")))
    | LaunchFailed e => (w', Raise (Exception e))
    end.

(** [len(AudioSegment.from_mp3(path))], in milliseconds *)
Definition AudioSegment_from_mp3_len (path : string) : M World Z :=
  fun w => of_result (from_mp3 E (fs w !! path)) (log_call (DecodeMp3 path) w).

(** [open(path, "rb")] and reading it *)
Definition open_rb (path : string) : M World bytes :=
  fun w =>
    match fs w !! path with
    | Some b => (w, Return b)
    | None => (w, Raise (Exception (FileNotFoundError path)))
    end.

Definition client_audio_transcriptions_create
    (client : Client) (model path language : string) (file : bytes) : M World string :=
  fun w =>
    of_result (transcriptions_create E model file language)
              (log_call (Transcription model path language) w).

Definition client_chat_completions_create
    (client : Client) (request : chat_request) : M World (list (option string)) :=
  fun w => of_result (chat_completions_create E request) (log_call (ChatCompletion request) w).

(** [response.choices[0].message.content.strip()] *)
Definition first_content_stripped (choices : list (option string)) : M World string :=
  match choices with
  | [] => raise (Exception IndexError)
  | None :: _ => raise (Exception (AttributeError "'NoneType' object has no attribute 'strip'"))
  | Some content :: _ => mret (PyStr.strip content)
  end.

(** *** [init_openai] *)
Definition init_openai : M World (option Client) :=
  try_except
    (match secrets E "openai_api_key" with
     | Some key => mret (Some {| api_key := key |})
     | None => raise (Exception (KeyError "openai_api_key"))
     end)
    (fun e =>
       st_error ("Ошибка инициализации OpenAI API: " +:+ str e) ;;
       mret None).

(** *** [generate_case_number] *)
Definition strftime_Ymd (d : datetime) : string :=
  PyStr.zero_padded 4 (year d) +:+ PyStr.zero_padded 2 (month d)
    +:+ PyStr.zero_padded 2 (day d).

Definition strftime_HMS (d : datetime) : string :=
  PyStr.zero_padded 2 (hour d) +:+ PyStr.zero_padded 2 (minute d)
    +:+ PyStr.zero_padded 2 (second d).

Definition generate_case_number : string :=
  let now := datetime_now E in
  "М-" +:+ strftime_Ymd now +:+ "-" +:+ strftime_HMS now.

(** *** [check_ffmpeg] *)
Definition check_ffmpeg : M World bool :=
  try_except
    (subprocess_run_ffmpeg ["-version"] ;;
     mret true)
    (fun e =>
       match e with
       | CalledProcessError _ _ | FileNotFoundError _ => mret false
       | _ => raise (Exception e)
       end).

(** *** [extract_audio] *)
Definition extract_audio (uploaded_file : MediaUpload) : M World (string * Q) :=
  video_path ← (tmpfile ← NamedTemporaryFile ".mp4";
                file_write tmpfile (upload_data uploaded_file) ;;
                mret tmpfile);
  let audio_path := fst (OsPath.splitext video_path) +:+ ".mp3" in
  try_finally
    (try_except
       (subprocess_run_ffmpeg ["-i"; video_path; "-q:a"; "0"; "-map"; "a"; audio_path] ;;
        audio_len ← AudioSegment_from_mp3_len audio_path;
        let duration := (inject_Z audio_len / inject_Z 1000)%Q in
        mret (audio_path, duration))
       (fun e =>
          st_error ("Ошибка при извлечении аудио: " +:+ str e) ;;
          raise (Exception e)))
    (video_exists ← os_path_exists video_path;
     when video_exists (os_remove video_path)).

(** *** [transcribe_audio] *)
Definition transcribe_audio (client : Client) (audio_file language : string) : M World string :=
  try_finally
    (try_except
       (file ← open_rb audio_file;
        transcript_text ←
          client_audio_transcriptions_create client "whisper-1" audio_file language file;
        mret transcript_text)
       (fun e =>
          st_error ("Ошибка при транскрибации: " +:+ str e) ;;
          raise (Exception e)))
    (audio_exists ← os_path_exists audio_file;
     when audio_exists (os_remove audio_file)).

(** *** The text transforms *)

Definition chat (role_instruction prompt : string) (temp : Q) : chat_request :=
  {| model := "gpt-4o-mini";
     messages := [("developer", role_instruction); ("user", prompt)];
     temperature := temp |}.

Definition summarize_prompt (text language : string) : string :=
  "В рамках следственных действий установите достоверность показаний. Суммируйте следующий текст на языке "
    +:+ language +:+ ":" +:+ nl +:+ nl
    +:+ text +:+ nl +:+ nl
    +:+ "Дайте краткий вывод основных моментов, с учетом роли следствия в установлении достоверности показаний.".

Definition summarize_text (client : Client) (text language : string) : M World string :=
  let prompt := summarize_prompt text language in
  try_except
    (response ← client_chat_completions_create client
       (chat "Вы действуете как опытный следователь, оценивающий достоверность показаний."
             prompt (1 # 2));
     summary ← first_content_stripped response;
     mret summary)
    (fun e =>
       st_error ("Ошибка при суммаризации: " +:+ str e) ;;
       mret "").

Definition sequence_prompt (text : string) : string :=
  "Проанализируйте следующий текст показаний с точки зрения следственных действий. Проверьте логическую последовательность изложения и "
    +:+ "выделите несоответствия или пропущенные шаги, важные для установления достоверности показаний:"
    +:+ nl +:+ nl +:+ text.

Definition check_sequence (client : Client) (text : string) : M World string :=
  let prompt := sequence_prompt text in
  try_except
    (response ← client_chat_completions_create client
       (chat "Вы следователь, оценивающий последовательность изложения показаний."
             prompt (1 # 2));
     analysis ← first_content_stripped response;
     mret analysis)
    (fun e =>
       st_error ("Ошибка при проверке последовательности: " +:+ str e) ;;
       mret "").

Definition key_facts_prompt (text : string) : string :=
  "Извлеките из следующего текста ключевые факты, имеющие значение в следственном деле, которые помогут установить достоверность показаний:"
    +:+ nl +:+ nl +:+ text.

Definition extract_key_facts (client : Client) (text : string) : M World string :=
  let prompt := key_facts_prompt text in
  try_except
    (response ← client_chat_completions_create client
       (chat "Вы следователь, выделяющий существенные факты для установления истины."
             prompt (1 # 2));
     key_facts ← first_content_stripped response;
     mret key_facts)
    (fun e =>
       st_error ("Ошибка при извлечении ключевых фактов: " +:+ str e) ;;
       mret "").

Definition contradictions_prompt (text1 text2 : string) : string :=
  "Сравните следующие два показания и определите противоречия или расхождения между ними, которые могут повлиять на достоверность показаний:"
    +:+ nl +:+ nl
    +:+ "Показания лица №1:" +:+ nl +:+ text1 +:+ nl +:+ nl
    +:+ "Показания лица №2:" +:+ nl +:+ text2.

Definition contradictions_role : string :=
  "Вы следователь, сопоставляющий показания для выявления противоречий.".

Definition check_contradictions (client : Client) (text1 text2 : string) : M World string :=
  let prompt := contradictions_prompt text1 text2 in
  try_except
    (response ← client_chat_completions_create client
       (chat contradictions_role prompt (1 # 2));
     contradictions ← first_content_stripped response;
     mret contradictions)
    (fun e =>
       st_error ("Ошибка при проверке противоречий: " +:+ str e) ;;
       mret "").

Definition questions_prompt (contradictions : string) : string :=
  "На основе следующих противоречий, выявленных в показаниях, сформулируйте вопросы для уточнения и проверки достоверности сведений:"
    +:+ nl +:+ nl +:+ contradictions.

Definition questions_role : string :=
  "Вы следователь, формирующий вопросы для уточнения показаний.".

Definition formulate_questions (client : Client) (contradictions : string) : M World string :=
  let prompt := questions_prompt contradictions in
  try_except
    (response ← client_chat_completions_create client
       (chat questions_role prompt (7 # 10));
     questions ← first_content_stripped response;
     mret questions)
    (fun e =>
       st_error ("Ошибка при формировании вопросов: " +:+ str e) ;;
       mret "").

(** *** [main] *)

(** The source keeps one set of variables per party ([transcription1],
    [summary1], ... and [transcription2], [summary2], ...) and runs the same
    block of statements for each, differing in the party's number only; the
    block is embedded once, indexed by the party. *)
Inductive party : Type := Party1 | Party2.

Definition party_number (n : party) : string :=
  match n with Party1 => "1" | Party2 => "2" end.

Record PartyVars : Type := {
  transcription : string;
  summary : string;
  sequence_check : string;
  key_facts : string
}.

Definition unset_party : PartyVars :=
  {| transcription := ""; summary := ""; sequence_check := ""; key_facts := "" |}.

Record Locals : Type := {
  party1 : PartyVars;
  party2 : PartyVars;
  contradictions : option string;     (* [None]: never assigned *)
  questions : option string
}.

Definition party_vars (n : party) (l : Locals) : PartyVars :=
  match n with Party1 => party1 l | Party2 => party2 l end.

Definition set_party_vars (n : party) (f : PartyVars -> PartyVars) (l : Locals) : Locals :=
  match n with
  | Party1 => {| party1 := f (party1 l); party2 := party2 l;
                 contradictions := contradictions l; questions := questions l |}
  | Party2 => {| party1 := party1 l; party2 := f (party2 l);
                 contradictions := contradictions l; questions := questions l |}
  end.

Definition set_transcription (t : string) (v : PartyVars) : PartyVars :=
  {| transcription := t; summary := summary v;
     sequence_check := sequence_check v; key_facts := key_facts v |}.

Definition set_summary (t : string) (v : PartyVars) : PartyVars :=
  {| transcription := transcription v; summary := t;
     sequence_check := sequence_check v; key_facts := key_facts v |}.

Definition set_sequence_check (t : string) (v : PartyVars) : PartyVars :=
  {| transcription := transcription v; summary := summary v;
     sequence_check := t; key_facts := key_facts v |}.

Definition set_key_facts (t : string) (v : PartyVars) : PartyVars :=
  {| transcription := transcription v; summary := summary v;
     sequence_check := sequence_check v; key_facts := t |}.

Definition set_contradictions (t : string) (l : Locals) : Locals :=
  {| party1 := party1 l; party2 := party2 l;
     contradictions := Some t; questions := questions l |}.

Definition set_questions (t : string) (l : Locals) : Locals :=
  {| party1 := party1 l; party2 := party2 l;
     contradictions := contradictions l; questions := Some t |}.

Record Session : Type := {
  world : World;
  locals : Locals
}.

Definition lift {A : Type} (m : M World A) : M Session A :=
  fun s =>
    let '(w, r) := m (world s) in
    ({| world := w; locals := locals s |}, r).

Definition assign (f : Locals -> Locals) : M Session unit :=
  modify (fun s => {| world := world s; locals := f (locals s) |}).

Definition read {A : Type} (f : Locals -> A) : M Session A :=
  gets (fun s => f (locals s)).

Inductive Language : Type := ru | kk | en.

Definition language_code (l : Language) : string :=
  match l with ru => "ru" | kk => "kk" | en => "en" end.

Record Inputs : Type := {
  uploaded_file_1 : option MediaUpload;
  uploaded_file_2 : option MediaUpload;
  language : Language;
  start_pressed : bool       (* the start button *)
}.

(** The block under "Обработка материала для лица №n". *)
Definition process_party (client : Client) (language : string) (n : party)
    (uploaded_file : option MediaUpload) : M Session unit :=
  match uploaded_file with
  | Some upload =>
      lift (st_markdown ("### Обработка показаний лица №" +:+ party_number n)) ;;
      try_except
        ('(audio_path, duration) ← lift (extract_audio upload);
         lift (st_write ("Длительность аудио: " +:+ str_int (py_int duration) +:+ " сек.")) ;;
         text ← lift (transcribe_audio client audio_path language);
         assign (set_party_vars n (set_transcription text)) ;;
         text ← read (fun l => transcription (party_vars n l));
         result ← lift (summarize_text client text language);
         assign (set_party_vars n (set_summary result)) ;;
         text ← read (fun l => transcription (party_vars n l));
         result ← lift (check_sequence client text);
         assign (set_party_vars n (set_sequence_check result)) ;;
         text ← read (fun l => transcription (party_vars n l));
         result ← lift (extract_key_facts client text);
         assign (set_party_vars n (set_key_facts result)))
        (fun e =>
           lift (st_error ("Ошибка при обработке материала лица №" +:+ party_number n
                             +:+ ": " +:+ str e)))
  | None =>
      lift (st_warning ("Материал для лица №" +:+ party_number n +:+ " не загружен."))
  end.

(** The block under "Отображение результатов для лица №n". *)
Definition show_party (case_number : string) (n : party) : M Session unit :=
  v ← read (party_vars n);
  when (PyStr.truthy (transcription v))
    (lift (st_markdown ("#### Результаты для лица №" +:+ party_number n)) ;;
     lift (st_text_area ("Транскрипция лица №" +:+ party_number n) (transcription v) 200) ;;
     lift (st_text_area ("Суммаризация лица №" +:+ party_number n) (summary v) 100) ;;
     lift (st_text_area ("Анализ последовательности лица №" +:+ party_number n)
                        (sequence_check v) 100) ;;
     lift (st_text_area ("Ключевые факты лица №" +:+ party_number n) (key_facts v) 100) ;;
     lift (st_download_button
             ("⬇️ Скачать транскрипцию лица №" +:+ party_number n)
             (transcription v)
             ("Протокол_лицо" +:+ party_number n +:+ "_" +:+ case_number +:+ ".txt")
             "text/plain")).

(** The block under "Сопоставление показаний и формирование вопросов". *)
Definition compare_parties (client : Client) : M Session unit :=
  transcription1 ← read (fun l => transcription (party1 l));
  transcription2 ← read (fun l => transcription (party2 l));
  when (PyStr.truthy transcription1 && PyStr.truthy transcription2)
    (lift (st_markdown "## Сопоставление показаний и установление достоверности") ;;
     contradictions ← lift (check_contradictions client transcription1 transcription2);
     assign (set_contradictions contradictions) ;;
     questions ← lift (formulate_questions client contradictions);
     assign (set_questions questions) ;;
     lift (st_text_area "Найденные противоречия" contradictions 150) ;;
     lift (st_text_area "Сформированные вопросы" questions 150)).

(** The body of [if st.button(...)]. *)
Definition start_processing (client : Client) (case_number : string) (inp : Inputs)
    : M Session unit :=
  assign (set_party_vars Party1 (fun _ => unset_party)) ;;
  assign (set_party_vars Party2 (fun _ => unset_party)) ;;
  process_party client (language_code (language inp)) Party1 (uploaded_file_1 inp) ;;
  process_party client (language_code (language inp)) Party2 (uploaded_file_2 inp) ;;
  show_party case_number Party1 ;;
  show_party case_number Party2 ;;
  compare_parties client.

(** [main].  The values of the widgets are the run's inputs. *)
Definition main (inp : Inputs) : M Session unit :=
  lift load_css ;;
  ffmpeg_found ← lift check_ffmpeg;
  when (negb ffmpeg_found)
    (lift (st_error "FFmpeg не установлен. Пожалуйста, установите FFmpeg для работы с видео.") ;;
     lift st_stop) ;;
  lift (st_markdown_html header_html) ;;
  client ← lift init_openai;
  match client with
  | None =>
      lift (st_error "⚠️ Введите API ключ OpenAI в боковой панели для начала работы")
  | Some client =>
      lift (st_columns [2; 1]) ;;
      lift (st_markdown "### 📤 Загрузка материалов") ;;
      uploaded_file_1 ← lift (st_file_uploader
                                "Выберите видео или аудио для показаний лица №1"
                                "face1" media_types (uploaded_file_1 inp));
      uploaded_file_2 ← lift (st_file_uploader
                                "Выберите видео или аудио для показаний лица №2"
                                "face2" media_types (uploaded_file_2 inp));
      lift (st_markdown "### 📋 Информация о материале") ;;
      case_number ← lift (st_text_input "Номер материала" generate_case_number true);
      language ← lift (st_selectbox "Язык материала" language_options (language inp));
      lift (st_markdown "---") ;;
      lift (st_info info_text) ;;
      pressed ← lift (st_button "🚀 Начать обработку" (start_pressed inp));
      when pressed
        (start_processing client case_number
           {| uploaded_file_1 := uploaded_file_1; uploaded_file_2 := uploaded_file_2;
              language := language; start_pressed := pressed |}) ;;
      lift (st_markdown "---") ;;
      lift (st_markdown_html footer_html)
  end.

End Program.

Definition fresh_locals : Locals :=
  {| party1 := unset_party; party2 := unset_party;
     contradictions := None; questions := None |}.

Definition start_session (w : World) : Session :=
  {| world := w; locals := fresh_locals |}.

(** A run of the script from world [w]. *)
Definition run_main (E : Env) (inp : Inputs) (w : World) : Session * outcome unit :=
  main E inp (start_session w).

(** ** Vocabulary of the statements *)

(** The name [NamedTemporaryFile] yields in world [w] for the source video. *)
Definition temp_video_path (E : Env) (w : World) : string :=
  OsPath.join (tempdir E) ("tmp" +:+ random_name E (tmp_drawn w) +:+ ".mp4").

(** The same name without its extension. *)
Definition temp_stem (E : Env) (w : World) : string :=
  fst (OsPath.splitext (temp_video_path E w)).

Definition temp_audio_path (E : Env) (w : World) : string :=
  temp_stem E w +:+ ".mp3".

Definition extraction_command (video_path audio_path : string) : list string :=
  ["ffmpeg"; "-i"; video_path; "-q:a"; "0"; "-map"; "a"; audio_path].

Definition probe_command : list string := ["ffmpeg"; "-version"].

(** The world at the moment [extract_audio] enters its [try]: the upload has
    been written to the temporary video file. *)
Definition upload_written (E : Env) (upload : MediaUpload) (w : World) : World :=
  with_fs (insert (temp_video_path E w) (upload_data upload))
          (with_fs (insert (temp_video_path E w) []) (draw_name w)).

(** What the body of a transform's [try] evaluates to for a request. *)
Definition generate (E : Env) (request : chat_request) : exception + string :=
  match chat_completions_create E request with
  | inl e => inl e
  | inr [] => inl IndexError
  | inr (None :: _) => inl (AttributeError "'NoneType' object has no attribute 'strip'")
  | inr (Some content :: _) => inr (PyStr.strip content)
  end.

(** The text a transform hands back. *)
Definition generated (E : Env) (request : chat_request) : string :=
  match generate E request with
  | inl _ => ""
  | inr t => t
  end.

Definition role_of (request : chat_request) : string :=
  match messages request with
  | (_, content) :: _ => content
  | [] => ""
  end.

(** The calls of the comparison step: the chat requests under the two
    comparison role instructions. *)
Definition is_comparison_call (c : call) : bool :=
  match c with
  | ChatCompletion request =>
      bool_decide (role_of request = contradictions_role)
      || bool_decide (role_of request = questions_role)
  | _ => false
  end.

(** The calls made since world [w]. *)
Definition calls_since (w : World) (w' : World) : list call :=
  drop (length (calls w)) (calls w').

Definition extraction_message (e : exception) : string :=
  "Ошибка при извлечении аудио: " +:+ str e.

Definition transcription_message (e : exception) : string :=
  "Ошибка при транскрибации: " +:+ str e.

Definition seconds (ms : Z) : Q := (inject_Z ms / inject_Z 1000)%Q.

(** [extract_audio] case by case: what the run of the converter and of the
    decoder leave behind. *)
Definition extraction_run (E : Env) (upload : MediaUpload) (w : World)
    : World * outcome (string * Q) :=
  let v := temp_video_path E w in
  let a := temp_audio_path E w in
  let cmd := extraction_command v a in
  let w1 := log_call (Subprocess cmd) (upload_written E upload w) in
  let c := ffmpeg_convert E (Some (upload_data upload)) in
  let failed (w' : World) (e : exception) : World * outcome (string * Q) :=
    (with_fs (delete v) (show (UiError (extraction_message e)) w'),
     Raise (Exception e)) in
  match conv_status c with
  | ExecutableMissing => failed w1 (FileNotFoundError "ffmpeg")
  | LaunchFailed e => failed w1 e
  | Exited rc =>
      let w2 := match conv_output c with
                | Some b => with_fs (insert a b) w1
                | None => w1
                end in
      if decide (rc = 0) then
        match from_mp3 E (fs w2 !! a) with
        | inr ms => (with_fs (delete v) (log_call (DecodeMp3 a) w2), Return (a, seconds ms))
        | inl e => failed (log_call (DecodeMp3 a) w2) e
        end
      else failed w2 (CalledProcessError cmd rc)
  end.

(** [transcribe_audio] case by case. *)
Definition transcription_run (E : Env) (audio_file language : string) (w : World)
    : World * outcome string :=
  match fs w !! audio_file with
  | None =>
      (show (UiError (transcription_message (FileNotFoundError audio_file))) w,
       Raise (Exception (FileNotFoundError audio_file)))
  | Some b =>
      let w1 := log_call (Transcription "whisper-1" audio_file language) w in
      match transcriptions_create E "whisper-1" b language with
      | inr t => (with_fs (delete audio_file) w1, Return t)
      | inl e =>
          (with_fs (delete audio_file) (show (UiError (transcription_message e)) w1),
           Raise (Exception e))
      end
  end.

(** A transform case by case: the request is logged; a failure is shown
    under the transform's caption and the empty text handed back. *)
Definition soft_run (E : Env) (caption : string) (request : chat_request) (w : World)
    : World * outcome string :=
  let w1 := log_call (ChatCompletion request) w in
  match generate E request with
  | inr t => (w1, Return t)
  | inl e => (show (UiError (caption +:+ str e)) w1, Return "")
  end.

(** The requests of the five transforms. *)
Definition summarize_request (text language : string) : chat_request :=
  chat "Вы действуете как опытный следователь, оценивающий достоверность показаний."
       (summarize_prompt text language) (1 # 2).

Definition sequence_request (text : string) : chat_request :=
  chat "Вы следователь, оценивающий последовательность изложения показаний."
       (sequence_prompt text) (1 # 2).

Definition key_facts_request (text : string) : chat_request :=
  chat "Вы следователь, выделяющий существенные факты для установления истины."
       (key_facts_prompt text) (1 # 2).

Definition contradictions_request (text1 text2 : string) : chat_request :=
  chat contradictions_role (contradictions_prompt text1 text2) (1 # 2).

Definition questions_request (contradictions : string) : chat_request :=
  chat questions_role (questions_prompt contradictions) (7 # 10).

(** A transform [m] with request [request] and error caption [caption] fails
    softly: it returns in every world; when the generation call fails it
    returns the empty text and shows the error, otherwise it returns the
    trimmed text (or, for a response without usable content, the empty text
    again). *)
Definition fails_softly (E : Env) (m : M World string) (caption : string)
    (request : chat_request) : Prop :=
  forall w : World,
  exists (w' : World) (t : string),
    m w = (w', Return t)
    /\ calls w' = calls w ++ [ChatCompletion request]
    /\ match chat_completions_create E request with
       | inl e => t = "" /\ ui w' = ui w ++ [UiError (caption +:+ str e)]
       | inr _ => t = generated E request
       end.

(** A text of [n] decimal digits. *)
Definition digits (n : nat) (s : string) : Prop :=
  String.length s = n /\ PyStr.all_chars PyStr.is_digit s = true.

Definition digits_check (n : nat) (s : string) : bool :=
  Nat.eqb (String.length s) n && PyStr.all_chars PyStr.is_digit s.

(** The Cyrillic capital letter Em, U+041C. *)
Definition cyrillic_em : string := PyStr.of_bytes [208; 156]%N.

(** From [w] to [w'] the logs only grow, and by no comparison call. *)
Definition quiet (w w' : World) : Prop :=
  (exists l : list call,
      calls w' = calls w ++ l /\ Forall (fun c => is_comparison_call c = false) l)
  /\ (exists u : list ui_element, ui w' = ui w ++ u).

(** The comparison calls made since world [w]. *)
Definition comparison_calls (w : World) (s : Session) : list call :=
  List.filter is_comparison_call (calls_since w (world s)).

Definition other (n : party) : party :=
  match n with Party1 => Party2 | Party2 => Party1 end.

Definition branch_message (n : party) (e : exception) : string :=
  "Ошибка при обработке материала лица №" +:+ party_number n +:+ ": " +:+ str e.

(** The converter leaves an output file whenever it exits with status 0. *)
Definition converter_writes_output (E : Env) : Prop :=
  forall input : option bytes,
    conv_status (ffmpeg_convert E input) = Exited 0 ->
    is_Some (conv_output (ffmpeg_convert E input)).

(** The transcript a party's upload leads to, from the collaborators'
    answers alone; [None] when the conversion, the decoding or the
    transcription fails. *)
Definition branch_transcript (E : Env) (language : string) (upload : MediaUpload)
    : option string :=
  let c := ffmpeg_convert E (Some (upload_data upload)) in
  match conv_status c, conv_output c with
  | Exited rc, Some mp3 =>
      if decide (rc = 0) then
        match from_mp3 E (Some mp3) with
        | inr _ =>
            match transcriptions_create E "whisper-1" mp3 language with
            | inr t => Some t
            | inl _ => None
            end
        | inl _ => None
        end
      else None
  | _, _ => None
  end.

(** A party's four texts for transcript [t]. *)
Definition analysis (E : Env) (language t : string) : PartyVars :=
  {| transcription := t;
     summary := generated E (summarize_request t language);
     sequence_check := generated E (sequence_request t);
     key_facts := generated E (key_facts_request t) |}.

(** A party's result as a function of its own upload. *)
Definition party_result (E : Env) (language : string) (uploaded : option MediaUpload)
    : PartyVars :=
  match uploaded with
  | Some upload =>
      match branch_transcript E language upload with
      | Some t => analysis E language t
      | None => unset_party
      end
  | None => unset_party
  end.

(** The branch of an upload fails. *)
Definition branch_fails (E : Env) (language : string) (uploaded : option MediaUpload)
    : Prop :=
  exists upload, uploaded = Some upload /\ branch_transcript E language upload = None.

Definition probe_ok (E : Env) : bool :=
  match ffmpeg_version E with
  | Exited 0 => true
  | _ => false
  end.

(** The exception of launching the probe that [check_ffmpeg] does not catch:
    any class other than [CalledProcessError] and [FileNotFoundError]. *)
Definition probe_escapes (E : Env) : option exception :=
  match ffmpeg_version E with
  | LaunchFailed (CalledProcessError _ _) | LaunchFailed (FileNotFoundError _) => None
  | LaunchFailed e => Some e
  | _ => None
  end.

Definition uploaded_file (n : party) (inp : Inputs) : option MediaUpload :=
  match n with Party1 => uploaded_file_1 inp | Party2 => uploaded_file_2 inp end.

(** The world a transform leaves. *)
Definition soft_world (E : Env) (caption : string) (request : chat_request) (w : World)
    : World :=
  fst (soft_run E caption request w).

(** The world after the three analyses of transcript [t]. *)
Definition analysis_world (E : Env) (language t : string) (w : World) : World :=
  soft_world E "Ошибка при извлечении ключевых фактов: " (key_facts_request t)
    (soft_world E "Ошибка при проверке последовательности: " (sequence_request t)
       (soft_world E "Ошибка при суммаризации: " (summarize_request t language) w)).

Definition duration_line (d : Q) : string :=
  "Длительность аудио: " +:+ str_int (py_int d) +:+ " сек.".

Definition with_world (w : World) (s : Session) : Session :=
  {| world := w; locals := locals s |}.

(** A party's processing block case by case, from the stages' runs. *)
Definition branch_run (E : Env) (language : string) (n : party)
    (uploaded : option MediaUpload) (s : Session) : Session :=
  match uploaded with
  | None =>
      with_world
        (show (UiWarning ("Материал для лица №" +:+ party_number n +:+ " не загружен."))
              (world s)) s
  | Some upload =>
      let w0 := show (UiMarkdown ("### Обработка показаний лица №" +:+ party_number n))
                     (world s) in
      match extraction_run E upload w0 with
      | (w1, Return (audio_path, duration)) =>
          match transcription_run E audio_path language
                  (show (UiWrite (duration_line duration)) w1) with
          | (w2, Return t) =>
              {| world := analysis_world E language t w2;
                 locals := set_party_vars n (fun _ => analysis E language t) (locals s) |}
          | (w2, Raise (Exception e)) =>
              with_world (show (UiError (branch_message n e)) w2) s
          | (w2, Raise StopException) => with_world w2 s
          end
      | (w1, Raise (Exception e)) =>
          with_world (show (UiError (branch_message n e)) w1) s
      | (w1, Raise StopException) => with_world w1 s
      end
  end.

(** A party's display block. *)
Definition shown (case_number : string) (n : party) (s : Session) : Session :=
  let v := party_vars n (locals s) in
  if PyStr.truthy (transcription v) then
    with_world
      (show (UiDownloadButton
               ("⬇️ Скачать транскрипцию лица №" +:+ party_number n)
               (transcription v)
               ("Протокол_лицо" +:+ party_number n +:+ "_" +:+ case_number +:+ ".txt")
               "text/plain")
         (show (UiTextArea ("Ключевые факты лица №" +:+ party_number n) (key_facts v) 100)
            (show (UiTextArea ("Анализ последовательности лица №" +:+ party_number n)
                              (sequence_check v) 100)
               (show (UiTextArea ("Суммаризация лица №" +:+ party_number n) (summary v) 100)
                  (show (UiTextArea ("Транскрипция лица №" +:+ party_number n)
                                    (transcription v) 200)
                     (show (UiMarkdown ("#### Результаты для лица №" +:+ party_number n))
                           (world s))))))) s
  else s.

(** The comparison block. *)
Definition compare_run (E : Env) (s : Session) : Session :=
  let t1 := transcription (party1 (locals s)) in
  let t2 := transcription (party2 (locals s)) in
  if PyStr.truthy t1 && PyStr.truthy t2 then
    let found := generated E (contradictions_request t1 t2) in
    let asked := generated E (questions_request found) in
    {| world :=
         show (UiTextArea "Сформированные вопросы" asked 150)
           (show (UiTextArea "Найденные противоречия" found 150)
              (soft_world E "Ошибка при формировании вопросов: " (questions_request found)
                 (soft_world E "Ошибка при проверке противоречий: "
                    (contradictions_request t1 t2)
                    (show (UiMarkdown "## Сопоставление показаний и установление достоверности")
                          (world s)))));
       locals := set_questions asked (set_contradictions found (locals s)) |}
  else s.

Definition reset_vars (s : Session) : Session :=
  {| world := world s;
     locals := set_party_vars Party2 (fun _ => unset_party)
                 (set_party_vars Party1 (fun _ => unset_party) (locals s)) |}.

(** The session before the comparison block. *)
Definition branches_run (E : Env) (case_number : string) (inp : Inputs) (s : Session)
    : Session :=
  shown case_number Party2
    (shown case_number Party1
       (branch_run E (language_code (language inp)) Party2 (uploaded_file_2 inp)
          (branch_run E (language_code (language inp)) Party1 (uploaded_file_1 inp)
             (reset_vars s)))).

(** The page around the processing. *)
Definition page_style : ui_element := UiHtml css_text.

Definition page_header : ui_element := UiHtml header_html.

Definition page_form (E : Env) : list ui_element :=
  [UiColumns [2; 1];
   UiMarkdown "### 📤 Загрузка материалов";
   UiFileUploader "Выберите видео или аудио для показаний лица №1" "face1" media_types;
   UiFileUploader "Выберите видео или аудио для показаний лица №2" "face2" media_types;
   UiMarkdown "### 📋 Информация о материале";
   UiTextInput "Номер материала" (generate_case_number E) true;
   UiSelectbox "Язык материала" language_options;
   UiMarkdown "---";
   UiInfo info_text;
   UiButton "🚀 Начать обработку"].

Definition page_footer : list ui_element := [UiMarkdown "---"; UiHtml footer_html].

Definition show_all (l : list ui_element) (w : World) : World :=
  fold_left (fun w' u => show u w') l w.

(** The world when the probe has run: the style sheet is on the page. *)
Definition probed (w : World) : World :=
  log_call (Subprocess probe_command) (show page_style w).

(** The world when the form is on the page. *)
Definition form_shown (E : Env) (w : World) : World :=
  show_all (page_form E) (show page_header (probed w)).

(** A run of the script case by case. *)
Definition main_run (E : Env) (inp : Inputs) (w : World) : Session * outcome unit :=
  match probe_escapes E with
  | Some e => (start_session (probed w), Raise (Exception e))
  | None =>
      if probe_ok E then
        match secrets E "openai_api_key" with
        | Some key =>
            if start_pressed inp then
              let s := compare_run E
                         (branches_run E (generate_case_number E) inp
                            (start_session (form_shown E w))) in
              (with_world (show_all page_footer (world s)) s, Return tt)
            else (start_session (show_all page_footer (form_shown E w)), Return tt)
        | None =>
            (start_session
               (show (UiError "⚠️ Введите API ключ OpenAI в боковой панели для начала работы")
                  (show (UiError ("Ошибка инициализации OpenAI API: "
                                    +:+ str (KeyError "openai_api_key")))
                     (show page_header (probed w)))),
             Return tt)
        end
      else
        (start_session
           (show (UiError "FFmpeg не установлен. Пожалуйста, установите FFmpeg для работы с видео.")
                 (probed w)),
         Raise StopException)
  end.

(** What a party's processing block does to the session, stage by stage:
    it returns, leaves the other party's variables alone, and
    - without upload changes no variable;
    - when [extract_audio] or [transcribe_audio] raises [e], keeps every
      variable and shows [e] under the party's caption;
    - when both return, holds the four texts of the transcript. *)
Definition block_isolated (E : Env) (client : Client) (language : string) (n : party)
    (uploaded : option MediaUpload) (s : Session) : Prop :=
  let s' := fst (process_party E client language n uploaded s) in
  snd (process_party E client language n uploaded s) = Return tt
  /\ party_vars (other n) (locals s') = party_vars (other n) (locals s)
  /\ match uploaded with
     | None => locals s' = locals s
     | Some upload =>
         let w0 := show (UiMarkdown ("### Обработка показаний лица №" +:+ party_number n))
                        (world s) in
         match extract_audio E upload w0 with
         | (w1, Raise (Exception e)) =>
             s' = with_world (show (UiError (branch_message n e)) w1) s
         | (w1, Raise StopException) => False
         | (w1, Return (audio_path, duration)) =>
             match transcribe_audio E client audio_path language
                     (show (UiWrite (duration_line duration)) w1) with
             | (w2, Raise (Exception e)) =>
                 s' = with_world (show (UiError (branch_message n e)) w2) s
             | (w2, Raise StopException) => False
             | (w2, Return t) => party_vars n (locals s') = analysis E language t
             end
         end
     end.

(** ** Sample environments *)

Definition sample_instant : datetime :=
  {| year := 2024; month := 3; day := 7; hour := 9; minute := 5; second := 0 |}.

(** Uploads are told apart by their first byte: [x01] converts and decodes,
    [x03] converts to a file the decoder rejects, anything else makes the
    converter exit with status 1. *)
Definition sample_env : Env := {|
  tempdir := "/tmp";
  rng_choice := fun n => n;
  datetime_now := sample_instant;
  secrets := fun _ => Some "sk-sample";
  ffmpeg_version := Exited 0;
  ffmpeg_convert := fun input =>
    match input with
    | Some (Byte.x01 :: _) => {| conv_status := Exited 0; conv_output := Some [Byte.x02] |}
    | Some (Byte.x03 :: _) => {| conv_status := Exited 0; conv_output := Some [Byte.x04] |}
    | _ => {| conv_status := Exited 1; conv_output := None |}
    end;
  from_mp3 := fun audio =>
    match audio with
    | Some [Byte.x02] => inr 12345
    | _ => inl (LibraryError "Decoding failed. ffmpeg returned error code: 1")
    end;
  transcriptions_create := fun _ _ _ => inr "I was at home.";
  chat_completions_create := fun request =>
    if bool_decide (role_of request = contradictions_role)
    then inl (LibraryError "Connection error.")
    else inr [Some " noted "]
|}.

Definition empty_world : World :=
  {| fs := ∅; tmp_drawn := 0; calls := []; ui := [] |}.

Definition good_upload : MediaUpload :=
  {| upload_name := "party.mp3"; upload_data := [Byte.x01; Byte.x00] |}.

Definition undecodable_upload : MediaUpload :=
  {| upload_name := "party.mp4"; upload_data := [Byte.x03; Byte.x00] |}.

Definition malformed_upload : MediaUpload :=
  {| upload_name := "party.avi"; upload_data := [Byte.xff] |}.

Definition sample_client : Client := {| api_key := "sk-sample" |}.

Definition both_uploads (first second : MediaUpload) : Inputs :=
  {| uploaded_file_1 := Some first; uploaded_file_2 := Some second;
     language := ru; start_pressed := true |}.

(** ** Further vocabulary *)

(** The exception [subprocess.run(..., check=True)] raises for a status. *)
Definition conversion_error (cmd : list string) (status : proc_outcome) : option exception :=
  match status with
  | Exited rc => if decide (rc = 0) then None else Some (CalledProcessError cmd rc)
  | ExecutableMissing => Some (FileNotFoundError "ffmpeg")
  | LaunchFailed e => Some e
  end.

(** What the page shows since world [w]. *)
Definition ui_since (w w' : World) : list ui_element :=
  drop (length (ui w)) (ui w').

Definition is_download (u : ui_element) : bool :=
  match u with
  | UiDownloadButton _ _ _ _ => true
  | _ => false
  end.

(** The download a party's results block offers. *)
Definition transcript_download (case_number : string) (n : party) (t : string) : ui_element :=
  UiDownloadButton
    ("⬇️ Скачать транскрипцию лица №" +:+ party_number n)
    t
    ("Протокол_лицо" +:+ party_number n +:+ "_" +:+ case_number +:+ ".txt")
    "text/plain".

Definition party_header (n : party) : ui_element :=
  UiMarkdown ("### Обработка показаний лица №" +:+ party_number n).

Definition not_loaded_warning (n : party) : ui_element :=
  UiWarning ("Материал для лица №" +:+ party_number n +:+ " не загружен.").

(** The number a text of decimal digits denotes. *)
Fixpoint digits_value_from (acc : N) (s : string) : N :=
  match s with
  | EmptyString => acc
  | String c s' => digits_value_from (10 * acc + (N_of_ascii c - 48)) s'
  end.

Definition digits_value (s : string) : N := digits_value_from 0 s.

Definition sample_world : World :=
  {| fs := {[ "/srv/evidence/notes.txt" := [Byte.x41; Byte.x42] ]};
     tmp_drawn := 0; calls := []; ui := [] |}.

Definition no_uploads : Inputs :=
  {| uploaded_file_1 := None; uploaded_file_2 := None;
     language := kk; start_pressed := true |}.

(** From [w] to [w'] the page grew by elements whose download buttons are
    [l]. *)
Definition offers (w w' : World) (l : list ui_element) : Prop :=
  exists u : list ui_element, ui w' = ui w ++ u /\ List.filter is_download u = l.

(** The download buttons shown since world [w]. *)
Definition downloads_since (w w' : World) : list ui_element :=
  List.filter is_download (ui_since w w').

(** The download a party is offered for transcript [t]: none for the empty
    transcript. *)
Definition offered (case_number : string) (n : party) (t : string) : list ui_element :=
  if PyStr.truthy t then [transcript_download case_number n t] else [].

(** [sample_env] on a host that refuses to execute the converter. *)
Definition denied_env : Env := {|
  tempdir := tempdir sample_env;
  rng_choice := rng_choice sample_env;
  datetime_now := datetime_now sample_env;
  secrets := secrets sample_env;
  ffmpeg_version := LaunchFailed (PermissionError "ffmpeg");
  ffmpeg_convert := fun _ =>
    {| conv_status := LaunchFailed (PermissionError "ffmpeg"); conv_output := None |};
  from_mp3 := from_mp3 sample_env;
  transcriptions_create := transcriptions_create sample_env;
  chat_completions_create := chat_completions_create sample_env
|}.

(** [sample_env] without the API key. *)
Definition keyless_env : Env := {|
  tempdir := tempdir sample_env;
  rng_choice := rng_choice sample_env;
  datetime_now := datetime_now sample_env;
  secrets := fun _ => None;
  ffmpeg_version := ffmpeg_version sample_env;
  ffmpeg_convert := ffmpeg_convert sample_env;
  from_mp3 := from_mp3 sample_env;
  transcriptions_create := transcriptions_create sample_env;
  chat_completions_create := chat_completions_create sample_env
|}.

Definition idle_inputs : Inputs :=
  {| uploaded_file_1 := Some good_upload; uploaded_file_2 := Some good_upload;
     language := en; start_pressed := false |}.

(** * Properties *)

(** ** Strings and paths *)

Module PyStrFacts.
Import PyStr.

Lemma append_cons (a : ascii) (s t : string) :
  String a s +:+ t = String a (s +:+ t).
Proof. reflexivity. Qed.

Lemma append_nil_l (t : string) : "" +:+ t = t.
Proof. reflexivity. Qed.

Lemma append_assoc (s t u : string) : (s +:+ t) +:+ u = s +:+ t +:+ u.
Proof.
  induction s as [|a s IH]; [reflexivity|].
  rewrite !append_cons, IH. reflexivity.
Qed.

Lemma length_append (s t : string) :
  String.length (s +:+ t) = (String.length s + String.length t)%nat.
Proof.
  induction s as [|a s IH]; [reflexivity|].
  rewrite append_cons. simpl. rewrite IH. reflexivity.
Qed.

Lemma take_append (s t : string) : take (String.length s) (s +:+ t) = s.
Proof.
  induction s as [|a s IH]; [destruct t; reflexivity|].
  rewrite append_cons. simpl. rewrite IH. reflexivity.
Qed.

Lemma drop_append (s t : string) : drop (String.length s) (s +:+ t) = t.
Proof.
  induction s as [|a s IH]; [destruct t; reflexivity|].
  rewrite append_cons. simpl. exact IH.
Qed.

Lemma occurs_append (c : ascii) (s t : string) :
  occurs c (s +:+ t) = occurs c s || occurs c t.
Proof.
  induction s as [|a s IH]; [reflexivity|].
  rewrite append_cons. simpl. rewrite IH. apply orb_assoc.
Qed.

Lemma rfind_from_append (c : ascii) (s t : string) (i last : Z) :
  rfind_from c (s +:+ t) i last
  = rfind_from c t (i + Z.of_nat (String.length s)) (rfind_from c s i last).
Proof.
  revert i last.
  induction s as [|a s IH]; intros i last.
  - rewrite append_nil_l. simpl. f_equal. lia.
  - rewrite append_cons. simpl rfind_from. rewrite IH. f_equal.
    simpl String.length. lia.
Qed.

Lemma rfind_from_absent (c : ascii) (s : string) (i last : Z) :
  occurs c s = false -> rfind_from c s i last = last.
Proof.
  revert i last.
  induction s as [|a s IH]; intros i last H; [reflexivity|].
  simpl in H. apply orb_false_iff in H as [Ha Hs].
  simpl. rewrite Ha. apply IH, Hs.
Qed.

Lemma rfind_from_bound (c : ascii) (s : string) (i last : Z) :
  last < i -> rfind_from c s i last < i + Z.of_nat (String.length s).
Proof.
  revert i last.
  induction s as [|a s IH]; intros i last H; simpl.
  - lia.
  - destruct (Ascii.eqb a c).
    + specialize (IH (i + 1) i). lia.
    + specialize (IH (i + 1) last). lia.
Qed.

Lemma rfind_from_lower (c : ascii) (s : string) (i last : Z) :
  last <= i -> last <= rfind_from c s i last.
Proof.
  revert i last.
  induction s as [|a s IH]; intros i last H; simpl.
  - lia.
  - destruct (Ascii.eqb a c).
    + specialize (IH (i + 1) i). lia.
    + apply IH. lia.
Qed.

Lemma any_char_take (P : ascii -> bool) (n k : nat) (s : string) (c : ascii) :
  (k < n)%nat -> String.get k s = Some c -> P c = true ->
  any_char P (take n s) = true.
Proof.
  revert k s.
  induction n as [|n IH]; intros k s Hk Hget HP; [lia|].
  destruct s as [|a s]; [destruct k; discriminate|].
  simpl. destruct k as [|k].
  - simpl in Hget. injection Hget as ->. rewrite HP. reflexivity.
  - simpl in Hget. rewrite (IH k s); [apply orb_true_r | lia | assumption..].
Qed.

Lemma get_drop (n k : nat) (s : string) :
  String.get k (drop n s) = String.get (n + k) s.
Proof.
  revert s.
  induction n as [|n IH]; intros s; [reflexivity|].
  destruct s as [|a s]; [destruct k; reflexivity|].
  simpl. apply IH.
Qed.

Lemma get_append_head (s t : string) (a : ascii) :
  String.get (String.length s) (s +:+ String a t) = Some a.
Proof.
  induction s as [|b s IH]; [reflexivity|].
  rewrite append_cons. simpl. exact IH.
Qed.

End PyStrFacts.

Module OsPathFacts.
Import PyStr PyStrFacts OsPath.

(** A path whose last component begins with a letter and carries the last
    dot of the whole path: [splitext] cuts at that dot. *)
Lemma splitext_suffix (dir stem ext : string) (a : ascii) :
  a <> "."%char ->
  occurs "/" (String a stem +:+ String "." ext) = false ->
  occurs "." ext = false ->
  splitext (dir +:+ String a stem +:+ String "." ext)
  = (dir +:+ String a stem, String "." ext).
Proof.
  intros Ha Hsep Hdot.
  set (pre := dir +:+ String a stem).
  assert (Hp : dir +:+ String a stem +:+ String "." ext = pre +:+ String "." ext)
    by (unfold pre; rewrite append_assoc; reflexivity).
  assert (Hdi : rfind "." (pre +:+ String "." ext) = Z.of_nat (String.length pre)).
  { unfold rfind. rewrite rfind_from_append. simpl rfind_from.
    rewrite rfind_from_absent by exact Hdot. lia. }
  assert (Hsi : rfind "/" (pre +:+ String "." ext) < Z.of_nat (String.length dir)).
  { rewrite <- Hp. unfold rfind. rewrite rfind_from_append.
    rewrite rfind_from_absent by exact Hsep.
    pose proof (rfind_from_bound "/" dir 0 (-1)). lia. }
  assert (Hlen : String.length pre = (String.length dir + S (String.length stem))%nat).
  { unfold pre. rewrite length_append. reflexivity. }
  assert (Hlo : -1 <= rfind "/" (pre +:+ String "." ext)).
  { rewrite <- Hp. unfold rfind. rewrite rfind_from_append.
    rewrite rfind_from_absent by exact Hsep.
    apply rfind_from_lower. lia. }
  rewrite Hp. unfold splitext. rewrite Hdi.
  set (sep := rfind "/" (pre +:+ String "." ext)) in *.
  assert (Hgt : (Z.of_nat (String.length pre) >? sep) = true) by lia.
  rewrite Hgt. simpl andb.
  assert (Hany : any_char (fun c => negb (Ascii.eqb c "."))
                   (slice (sep + 1) (Z.of_nat (String.length pre)) (pre +:+ String "." ext))
                 = true).
  { unfold slice.
    apply (any_char_take _ _ (String.length dir - Z.to_nat (sep + 1))%nat _ a).
    - lia.
    - rewrite get_drop.
      replace (Z.to_nat (sep + 1) + (String.length dir - Z.to_nat (sep + 1)))%nat
        with (String.length dir) by lia.
      rewrite <- Hp. apply get_append_head.
    - apply negb_true_iff, Ascii.eqb_neq, Ha. }
  rewrite Hany, Nat2Z.id, take_append, drop_append. reflexivity.
Qed.

Lemma join_relative (a b : string) :
  startswith "/" b = false -> exists dir, join a b = dir +:+ b.
Proof.
  intros Hb. unfold join. rewrite Hb.
  destruct (negb (truthy a) || endswith "/" a).
  - exists a. reflexivity.
  - exists (a +:+ "/"). rewrite append_assoc. reflexivity.
Qed.

End OsPathFacts.

(** ** Running the monad *)

Section Running.

Context {S A B : Type}.

Lemma bind_run (m : M S A) (f : A -> M S B) (s : S) :
  (m ≫= f) s
  = match m s with
    | (s', Return a) => f a s'
    | (s', Raise e) => (s', Raise e)
    end.
Proof. reflexivity. Qed.

Lemma bind_return (m : M S A) (f : A -> M S B) (s s' : S) (a : A) :
  m s = (s', Return a) -> (m ≫= f) s = f a s'.
Proof. intros H. rewrite bind_run, H. reflexivity. Qed.

Lemma bind_raise (m : M S A) (f : A -> M S B) (s s' : S) (e : raised) :
  m s = (s', Raise e) -> (m ≫= f) s = (s', Raise e).
Proof. intros H. rewrite bind_run, H. reflexivity. Qed.

End Running.

(** The cleanup idiom [if os.path.exists(p): os.remove(p)] in a [finally]
    leaves no file at [p], whatever the body did, and keeps the body's
    outcome. *)
Lemma finally_removes {A : Type} (body : M World A) (path : string) (w : World) :
  let r := try_finally body
             (present ← os_path_exists path; when present (os_remove path)) w in
  fs (fst r) !! path = None
  /\ snd r = snd (body w)
  /\ calls (fst r) = calls (fst (body w))
  /\ ui (fst r) = ui (fst (body w))
  /\ (forall q, q <> path -> fs (fst r) !! q = fs (fst (body w)) !! q).
Proof.
  unfold try_finally. destruct (body w) as [w1 r1].
  rewrite bind_run. unfold os_path_exists, gets, when, os_remove, modify.
  case_bool_decide as Hp; simpl.
  - repeat split; [apply lookup_delete_eq | intros q Hq; apply lookup_delete_ne; congruence].
  - repeat split. destruct (fs w1 !! path) eqn:Heq; [|reflexivity].
    exfalso. apply Hp. eauto.
Qed.

(** Projections of the world through its updates. *)
Lemma fs_log_call (c : call) (w : World) : fs (log_call c w) = fs w.
Proof. reflexivity. Qed.

Lemma fs_show (u : ui_element) (w : World) : fs (show u w) = fs w.
Proof. reflexivity. Qed.

Lemma fs_with_fs (f : gmap string bytes -> gmap string bytes) (w : World) :
  fs (with_fs f w) = f (fs w).
Proof. reflexivity. Qed.

Lemma calls_log_call (c : call) (w : World) : calls (log_call c w) = calls w ++ [c].
Proof. reflexivity. Qed.

Lemma calls_show (u : ui_element) (w : World) : calls (show u w) = calls w.
Proof. reflexivity. Qed.

Lemma calls_with_fs (f : gmap string bytes -> gmap string bytes) (w : World) :
  calls (with_fs f w) = calls w.
Proof. reflexivity. Qed.

Lemma ui_log_call (c : call) (w : World) : ui (log_call c w) = ui w.
Proof. reflexivity. Qed.

Lemma ui_show (u : ui_element) (w : World) : ui (show u w) = ui w ++ [u].
Proof. reflexivity. Qed.

Lemma ui_with_fs (f : gmap string bytes -> gmap string bytes) (w : World) :
  ui (with_fs f w) = ui w.
Proof. reflexivity. Qed.

Create Rewrite HintDb world.

#[global] Hint Rewrite fs_log_call fs_show fs_with_fs calls_log_call calls_show
  calls_with_fs ui_log_call ui_show ui_with_fs : world.

Lemma ui_show_all (l : list ui_element) (w : World) : ui (show_all l w) = ui w ++ l.
Proof.
  revert w. induction l as [|u l IH]; intros w; cbn [show_all fold_left].
  - rewrite app_nil_r. reflexivity.
  - unfold show_all in IH. rewrite IH, ui_show, <- app_assoc. reflexivity.
Qed.

Lemma calls_show_all (l : list ui_element) (w : World) : calls (show_all l w) = calls w.
Proof.
  revert w. induction l as [|u l IH]; intros w; cbn [show_all fold_left]; [reflexivity|].
  unfold show_all in IH. rewrite IH. reflexivity.
Qed.

Lemma fs_show_all (l : list ui_element) (w : World) : fs (show_all l w) = fs w.
Proof.
  revert w. induction l as [|u l IH]; intros w; cbn [show_all fold_left]; [reflexivity|].
  unfold show_all in IH. rewrite IH. reflexivity.
Qed.

#[global] Hint Rewrite ui_show_all calls_show_all fs_show_all : world.

(** Unfolds the monad's operations and the primitives, leaving the world
    updates folded. *)
Ltac run :=
  cbv beta iota zeta delta
    [try_finally try_except mbind M_bind mret M_ret raise modify gets when of_result
     subprocess_run_ffmpeg AudioSegment_from_mp3_len open_rb
     client_audio_transcriptions_create client_chat_completions_create
     first_content_stripped st_error st_warning st_write st_markdown st_text_area
     st_download_button st_stop os_path_exists os_remove file_write].

Section ProgramFacts.

Variable E : Env.

Lemma ffmpeg_convert_run (video_path audio_path : string) (w : World) :
  ffmpeg E ["-i"; video_path; "-q:a"; "0"; "-map"; "a"; audio_path] w
  = let c := ffmpeg_convert E (fs w !! video_path) in
    match conv_status c, conv_output c with
    | Exited rc, Some b => (with_fs (insert audio_path b) w, Exited rc)
    | status, _ => (w, status)
    end.
Proof.
  unfold ffmpeg.
  rewrite decide_False by discriminate.
  rewrite decide_True by reflexivity.
  reflexivity.
Qed.

Lemma ffmpeg_version_run (w : World) :
  ffmpeg E ["-version"] w = (w, ffmpeg_version E).
Proof. unfold ffmpeg. rewrite decide_True by reflexivity. reflexivity. Qed.

Lemma extract_audio_unfold (upload : MediaUpload) (w : World) :
  exists body : M World (string * Q),
    extract_audio E upload w
    = try_finally body
        (present ← os_path_exists (temp_video_path E w);
         when present (os_remove (temp_video_path E w)))
        (upload_written E upload w).
Proof. eexists. reflexivity. Qed.

Lemma upload_written_present (upload : MediaUpload) (w : World) :
  fs (upload_written E upload w) !! temp_video_path E w = Some (upload_data upload).
Proof. unfold upload_written. rewrite !fs_with_fs. apply lookup_insert_eq. Qed.

Lemma extract_audio_run (upload : MediaUpload) (w : World) :
  extract_audio E upload w = extraction_run E upload w.
Proof.
  unfold extract_audio. rewrite bind_run.
  change ((tmpfile ← NamedTemporaryFile E ".mp4";
           file_write tmpfile (upload_data upload);; mret tmpfile) w)
    with (upload_written E upload w, @Return string (temp_video_path E w)).
  cbv beta iota.
  fold (temp_stem E w). fold (temp_audio_path E w).
  unfold extraction_run.
  pose proof (upload_written_present upload w) as Hv.
  set (v := temp_video_path E w) in *. set (a := temp_audio_path E w).
  set (w0 := upload_written E upload w) in *.
  fold (extraction_command v a).
  run. rewrite ffmpeg_convert_run. rewrite fs_log_call, Hv. cbv zeta.
  assert (Hins : forall (b : bytes) (m : gmap string bytes), m !! v = Some (upload_data upload) ->
                             is_Some (<[a:=b]> m !! v)).
  { intros b m Hm. apply lookup_insert_is_Some'. right. eauto. }
  destruct (ffmpeg_convert E (Some (upload_data upload))) as [[rc| |e0] out];
    cbv beta iota delta [conv_status conv_output].
  - assert (Hw2 : is_Some (fs match out with
                              | Some b => with_fs <[a:=b]> (log_call (Subprocess (extraction_command v a)) w0)
                              | None => log_call (Subprocess (extraction_command v a)) w0
                              end !! v)).
    { destruct out; autorewrite with world; eauto. }
    destruct (decide (rc = 0)) as [->|Hrc].
    + destruct out as [b|];
        (destruct (from_mp3 E _) as [e|ms];
         cbv beta iota;
         rewrite bool_decide_eq_true_2 by (autorewrite with world; exact Hw2);
         reflexivity).
    + destruct out as [b|]; destruct rc as [|rc|rc]; try congruence;
        cbv beta iota;
        rewrite bool_decide_eq_true_2 by (autorewrite with world; exact Hw2);
        reflexivity.
  - destruct out as [b|]; cbv beta iota;
      rewrite bool_decide_eq_true_2 by (autorewrite with world; eauto);
      reflexivity.
  - destruct out as [b|]; cbv beta iota;
      rewrite bool_decide_eq_true_2 by (autorewrite with world; eauto);
      reflexivity.
Qed.

Lemma transcribe_audio_run (client : Client) (audio_file language : string) (w : World) :
  transcribe_audio E client audio_file language w
  = transcription_run E audio_file language w.
Proof.
  unfold transcribe_audio, transcription_run. run.
  destruct (fs w !! audio_file) as [b|] eqn:Hb.
  - destruct (transcriptions_create E "whisper-1" b language) as [e|t]; cbv beta iota;
      rewrite bool_decide_eq_true_2 by (autorewrite with world; eauto);
      reflexivity.
  - rewrite bool_decide_eq_false_2
      by (autorewrite with world; rewrite Hb; apply is_Some_None).
    reflexivity.
Qed.

Lemma soft_transform_run (client : Client) (caption : string)
    (request : chat_request) (w : World) :
  try_except
    (response ← client_chat_completions_create E client request;
     text ← first_content_stripped response;
     mret text)
    (fun e => st_error (caption +:+ str e) ;; mret "") w
  = soft_run E caption request w.
Proof.
  unfold soft_run, generate. run.
  destruct (chat_completions_create E request) as [e|[|[content|] rest]]; reflexivity.
Qed.

Lemma summarize_text_run (client : Client) (text language : string) (w : World) :
  summarize_text E client text language w
  = soft_run E "Ошибка при суммаризации: " (summarize_request text language) w.
Proof. apply soft_transform_run. Qed.

Lemma check_sequence_run (client : Client) (text : string) (w : World) :
  check_sequence E client text w
  = soft_run E "Ошибка при проверке последовательности: " (sequence_request text) w.
Proof. apply soft_transform_run. Qed.

Lemma extract_key_facts_run (client : Client) (text : string) (w : World) :
  extract_key_facts E client text w
  = soft_run E "Ошибка при извлечении ключевых фактов: " (key_facts_request text) w.
Proof. apply soft_transform_run. Qed.

Lemma check_contradictions_run (client : Client) (text1 text2 : string) (w : World) :
  check_contradictions E client text1 text2 w
  = soft_run E "Ошибка при проверке противоречий: " (contradictions_request text1 text2) w.
Proof. apply soft_transform_run. Qed.

Lemma formulate_questions_run (client : Client) (contradictions : string) (w : World) :
  formulate_questions E client contradictions w
  = soft_run E "Ошибка при формировании вопросов: " (questions_request contradictions) w.
Proof. apply soft_transform_run. Qed.

Lemma soft_run_fails_softly (m : M World string) (caption : string) (request : chat_request) :
  (forall w, m w = soft_run E caption request w) ->
  fails_softly E m caption request.
Proof.
  intros Hm w. rewrite Hm. unfold soft_run, generated, generate.
  destruct (chat_completions_create E request) as [e|[|[content|] rest]];
    eexists _, _; (split; [reflexivity|]); autorewrite with world; auto.
Qed.

(** The temporary names. *)
Lemma characters_no_separator (i : nat) : nth i characters "_"%char <> "/"%char.
Proof.
  assert (H : forall c, In c characters -> c <> "/"%char).
  { intros c Hc. unfold characters in Hc. simpl in Hc.
    repeat (destruct Hc as [<-|Hc]; [discriminate|]). destruct Hc. }
  destruct (nth_in_or_default i characters "_"%char) as [Hin| ->].
  - apply H, Hin.
  - discriminate.
Qed.

Lemma random_name_no_separator (k : nat) : PyStr.occurs "/" (random_name E k) = false.
Proof.
  unfold random_name. generalize (seq 0 8).
  induction l as [|j l IH]; [reflexivity|].
  cbn [map string_of_list_ascii PyStr.occurs]. rewrite IH, orb_false_r.
  apply Ascii.eqb_neq, characters_no_separator.
Qed.

Lemma temp_video_path_stem (w : World) :
  temp_video_path E w = temp_stem E w +:+ ".mp4".
Proof.
  unfold temp_stem.
  destruct (OsPathFacts.join_relative (tempdir E)
              ("tmp" +:+ random_name E (tmp_drawn w) +:+ ".mp4")) as [dir Hdir];
    [reflexivity|].
  unfold temp_video_path. rewrite Hdir.
  change (dir +:+ "tmp" +:+ random_name E (tmp_drawn w) +:+ ".mp4")
    with (dir +:+ String "t" ("mp" +:+ random_name E (tmp_drawn w)) +:+ String "." "mp4").
  rewrite OsPathFacts.splitext_suffix.
  - simpl fst. rewrite PyStrFacts.append_assoc. reflexivity.
  - discriminate.
  - rewrite PyStrFacts.occurs_append.
    change (String "t" ("mp" +:+ random_name E (tmp_drawn w)))
      with ("tmp" +:+ random_name E (tmp_drawn w)).
    rewrite PyStrFacts.occurs_append, random_name_no_separator. reflexivity.
  - reflexivity.
Qed.

Lemma temp_paths_differ (w : World) : temp_audio_path E w <> temp_video_path E w.
Proof.
  rewrite temp_video_path_stem. unfold temp_audio_path.
  intros H. apply (inj (String.app (temp_stem E w))) in H. discriminate.
Qed.

End ProgramFacts.

(** ** The stages and their temporary files *)

(** C3. [extract_audio] writes the upload to the temporary video file and,
    whatever happens afterwards (the converter exits with a non-zero status
    or is missing, the produced audio cannot be decoded, or everything
    succeeds), that file is gone when the call returns or raises. *)
Theorem extract_audio_removes_video (E : Env) (upload : MediaUpload) (w : World) :
  (exists w1 : World,
      (tmpfile ← NamedTemporaryFile E ".mp4";
       file_write tmpfile (upload_data upload);;
       mret tmpfile) w = (w1, Return (temp_video_path E w))
      /\ fs w1 !! temp_video_path E w = Some (upload_data upload))
  /\ fs (fst (extract_audio E upload w)) !! temp_video_path E w = None.
Proof.
  split.
  - exists (upload_written E upload w). split; [reflexivity|].
    apply upload_written_present.
  - destruct (extract_audio_unfold E upload w) as [body ->].
    apply finally_removes.
Qed.

(** C4. [transcribe_audio] leaves no file at the audio path, for every path
    and language, whether the speech-recognition call returned or raised
    (and whether or not the file could be opened at all). *)
Theorem transcribe_audio_removes_audio
    (E : Env) (client : Client) (audio_file language : string) (w : World) :
  fs (fst (transcribe_audio E client audio_file language w)) !! audio_file = None.
Proof. unfold transcribe_audio. apply finally_removes. Qed.

(** C2, at the failing input.  The upload converts (exit status 0, an audio
    file is written) but the decoder rejects the result: [extract_audio]
    raises, its [finally] removes the video file only, and the audio file
    stays on disk; [main] never reaches [transcribe_audio] for that party,
    so the file is still there when the run ends. *)
Theorem undecodable_audio_left_behind :
  let r := extract_audio sample_env undecodable_upload empty_world in
  let session :=
    fst (run_main sample_env
           {| uploaded_file_1 := Some undecodable_upload; uploaded_file_2 := None;
              language := ru; start_pressed := true |}
           empty_world) in
  snd r = Raise (Exception (LibraryError "Decoding failed. ffmpeg returned error code: 1"))
  /\ fs (fst r) !! "/tmp/tmpabcdefgh.mp4" = None
  /\ fs (fst r) !! "/tmp/tmpabcdefgh.mp3" = Some [Byte.x04]
  /\ fs (world session) !! "/tmp/tmpabcdefgh.mp3" = Some [Byte.x04].
Proof. vm_compute. repeat split. Qed.

(** C6. Each of the five transforms fails softly: it returns in every world
    and never raises; when the text-generation call fails it hands back the
    empty text and shows the error under its caption. *)
Theorem transforms_fail_softly
    (E : Env) (client : Client) (text text2 language contradictions : string) :
  fails_softly E (summarize_text E client text language)
    "Ошибка при суммаризации: " (summarize_request text language)
  /\ fails_softly E (check_sequence E client text)
       "Ошибка при проверке последовательности: " (sequence_request text)
  /\ fails_softly E (extract_key_facts E client text)
       "Ошибка при извлечении ключевых фактов: " (key_facts_request text)
  /\ fails_softly E (check_contradictions E client text text2)
       "Ошибка при проверке противоречий: " (contradictions_request text text2)
  /\ fails_softly E (formulate_questions E client contradictions)
       "Ошибка при формировании вопросов: " (questions_request contradictions).
Proof.
  repeat split; apply soft_run_fails_softly; intros w.
  - apply summarize_text_run.
  - apply check_sequence_run.
  - apply extract_key_facts_run.
  - apply check_contradictions_run.
  - apply formulate_questions_run.
Qed.

(** ** Running the script *)

Section MainFacts.

Variable E : Env.

Lemma soft_run_returns (caption : string) (request : chat_request) (w : World) :
  soft_run E caption request w
  = (soft_world E caption request w, Return (generated E request)).
Proof.
  unfold soft_world, soft_run, generated. destruct (generate E request); reflexivity.
Qed.

Lemma extraction_run_no_stop (upload : MediaUpload) (w : World) :
  snd (extraction_run E upload w) <> Raise StopException.
Proof.
  unfold extraction_run.
  destruct (conv_status _) as [rc| |e0]; [|discriminate..].
  destruct (decide (rc = 0)) as [Hrc|Hrc]; [|discriminate].
  destruct (from_mp3 E _); discriminate.
Qed.

Lemma transcription_run_no_stop (audio_file language : string) (w : World) :
  snd (transcription_run E audio_file language w) <> Raise StopException.
Proof.
  unfold transcription_run.
  destruct (fs w !! audio_file) as [b|]; [|discriminate].
  destruct (transcriptions_create E _ _ _); discriminate.
Qed.

Lemma party_vars_set_same (n : party) (f : PartyVars -> PartyVars) (l : Locals) :
  party_vars n (set_party_vars n f l) = f (party_vars n l).
Proof. destruct n; reflexivity. Qed.

Lemma party_vars_set_other (n : party) (f : PartyVars -> PartyVars) (l : Locals) :
  party_vars (other n) (set_party_vars n f l) = party_vars (other n) l.
Proof. destruct n; reflexivity. Qed.

(** Unfolds the session-level operations. *)
Ltac run_session :=
  cbv beta iota zeta delta
    [try_except mbind M_bind mret M_ret lift assign read modify gets when raise
     st_markdown st_write st_error st_warning st_text_area st_download_button st_stop
     st_markdown_html st_info st_columns st_file_uploader st_text_input st_selectbox
     st_button];
  cbn [world locals].

Lemma process_party_run (client : Client) (language : string) (n : party)
    (uploaded : option MediaUpload) (s : Session) :
  process_party E client language n uploaded s
  = (branch_run E language n uploaded s, Return tt).
Proof.
  unfold process_party, branch_run.
  destruct uploaded as [upload|]; [|reflexivity].
  run_session. rewrite extract_audio_run.
  pose proof (extraction_run_no_stop upload
                (show (UiMarkdown ("### Обработка показаний лица №" +:+ party_number n))
                      (world s))) as Hx.
  destruct (extraction_run E upload _) as [w1 [[a d]|[e|]]];
    [|reflexivity|contradiction Hx; reflexivity].
  rewrite transcribe_audio_run. fold (duration_line d).
  pose proof (transcription_run_no_stop a language
                (show (UiWrite (duration_line d)) w1)) as Ht.
  destruct (transcription_run E a language _) as [w2 [t|[e|]]];
    [|reflexivity|contradiction Ht; reflexivity].
  rewrite summarize_text_run, soft_run_returns. cbn [world locals].
  rewrite check_sequence_run, soft_run_returns. cbn [world locals].
  rewrite extract_key_facts_run, soft_run_returns. cbn [world locals].
  rewrite !party_vars_set_same.
  cbn [transcription set_transcription set_summary set_sequence_check].
  fold (analysis_world E language t w2).
  destruct n; reflexivity.
Qed.

Lemma show_party_run (case_number : string) (n : party) (s : Session) :
  show_party case_number n s = (shown case_number n s, Return tt).
Proof.
  unfold show_party, shown. run_session.
  destruct (PyStr.truthy _); [|destruct s]; reflexivity.
Qed.

Lemma compare_parties_run (client : Client) (s : Session) :
  compare_parties E client s = (compare_run E s, Return tt).
Proof.
  unfold compare_parties, compare_run. run_session.
  destruct (PyStr.truthy _ && PyStr.truthy _); [|destruct s; reflexivity].
  run_session.
  rewrite check_contradictions_run, soft_run_returns. cbn [world locals].
  rewrite formulate_questions_run, soft_run_returns. cbn [world locals].
  reflexivity.
Qed.

Lemma start_processing_run (client : Client) (case_number : string)
    (inp : Inputs) (s : Session) :
  start_processing E client case_number inp s
  = (compare_run E (branches_run E case_number inp s), Return tt).
Proof.
  unfold start_processing, branches_run.
  rewrite bind_run. unfold assign at 1, modify at 1. cbv beta iota.
  rewrite bind_run. unfold assign at 1, modify at 1. cbv beta iota.
  rewrite bind_run, process_party_run.
  rewrite bind_run, process_party_run.
  rewrite bind_run, show_party_run.
  rewrite bind_run, show_party_run.
  apply compare_parties_run.
Qed.

Lemma check_ffmpeg_run (w : World) :
  check_ffmpeg E w
  = (log_call (Subprocess probe_command) w,
     match probe_escapes E with
     | Some e => Raise (Exception e)
     | None => Return (probe_ok E)
     end).
Proof.
  unfold check_ffmpeg, probe_ok, probe_escapes. run. rewrite ffmpeg_version_run.
  destruct (ffmpeg_version E) as [[|rc|rc]| |[]]; reflexivity.
Qed.

Lemma probe_ok_returns : probe_ok E = true -> probe_escapes E = None.
Proof.
  unfold probe_ok, probe_escapes.
  destruct (ffmpeg_version E) as [[|rc|rc]| |e]; (discriminate || reflexivity).
Qed.

Lemma init_openai_run (w : World) :
  init_openai E w
  = match secrets E "openai_api_key" with
    | Some key => (w, Return (Some {| api_key := key |}))
    | None =>
        (show (UiError ("Ошибка инициализации OpenAI API: "
                          +:+ str (KeyError "openai_api_key"))) w,
         Return None)
    end.
Proof.
  unfold init_openai. run. destruct (secrets E "openai_api_key"); reflexivity.
Qed.

Lemma run_main_cases (inp : Inputs) (w : World) :
  run_main E inp w = main_run E inp w.
Proof.
  unfold run_main, main, main_run, form_shown.
  rewrite bind_run.
  change (lift load_css (start_session w))
    with (start_session (show page_style w), @Return unit tt).
  cbv beta iota.
  rewrite bind_run. unfold lift at 1. cbn [world start_session].
  rewrite check_ffmpeg_run. fold (probed w).
  destruct (probe_escapes E) as [e|]; [reflexivity|].
  destruct (probe_ok E); [|reflexivity].
  cbn [negb when]. rewrite bind_run. cbn [mret M_ret]. cbv beta iota.
  rewrite bind_run.
  change (lift (st_markdown_html header_html) ?s)
    with (start_session (show page_header (probed w)), @Return unit tt).
  cbv beta iota.
  rewrite bind_run. unfold lift at 1. cbn [world start_session].
  rewrite init_openai_run.
  destruct (secrets E "openai_api_key") as [key|]; [|reflexivity].
  cbv beta iota.
  destruct inp as [up1 up2 lang pressed].
  cbn [uploaded_file_1 uploaded_file_2 language start_pressed].
  destruct pressed; [|reflexivity].
  run_session. rewrite start_processing_run. reflexivity.
Qed.

(** *** Growth of the logs *)

Lemma quiet_refl (w : World) : quiet w w.
Proof.
  split; [exists []|exists []]; rewrite app_nil_r; auto.
Qed.

Lemma quiet_trans (w1 w2 w3 : World) : quiet w1 w2 -> quiet w2 w3 -> quiet w1 w3.
Proof.
  intros [(l & Hl & Fl) (u & Hu)] [(l' & Hl' & Fl') (u' & Hu')]. split.
  - exists (l ++ l'). rewrite Hl', Hl, app_assoc. split; [reflexivity|].
    apply Forall_app; auto.
  - exists (u ++ u'). rewrite Hu', Hu, app_assoc. reflexivity.
Qed.

Lemma quiet_show (u : ui_element) (w : World) : quiet w (show u w).
Proof.
  split; [exists []|exists [u]]; autorewrite with world; rewrite ?app_nil_r; auto.
Qed.

Lemma quiet_with_fs (f : gmap string bytes -> gmap string bytes) (w : World) :
  quiet w (with_fs f w).
Proof.
  split; [exists []|exists []]; autorewrite with world; rewrite ?app_nil_r; auto.
Qed.

Lemma quiet_draw_name (w : World) : quiet w (draw_name w).
Proof. split; [exists []|exists []]; rewrite app_nil_r; auto. Qed.

Lemma quiet_log_call (c : call) (w : World) :
  is_comparison_call c = false -> quiet w (log_call c w).
Proof.
  intros Hc. split; [exists [c]|exists []]; autorewrite with world;
    rewrite ?app_nil_r; auto.
Qed.

Create HintDb quiet discriminated.

#[local] Hint Resolve quiet_refl quiet_show quiet_with_fs quiet_draw_name quiet_log_call
  : quiet.

#[local] Hint Extern 2 (quiet _ _) => (eapply quiet_trans; [|solve [eauto with quiet]])
  : quiet.

Lemma soft_world_calls (caption : string) (request : chat_request) (w : World) :
  calls (soft_world E caption request w) = calls w ++ [ChatCompletion request]
  /\ exists u, ui (soft_world E caption request w) = ui w ++ u.
Proof.
  unfold soft_world, soft_run. destruct (generate E request); cbn [fst];
    autorewrite with world; split; auto.
  - eexists; reflexivity.
  - exists []. rewrite app_nil_r. reflexivity.
Qed.

Lemma soft_world_quiet (caption : string) (request : chat_request) (w : World) :
  is_comparison_call (ChatCompletion request) = false ->
  quiet w (soft_world E caption request w).
Proof.
  intros Hc. destruct (soft_world_calls caption request w) as [Hcalls Hui].
  split; [|exact Hui]. exists [ChatCompletion request]. split; auto.
Qed.

Lemma upload_written_quiet (upload : MediaUpload) (w : World) :
  quiet w (upload_written E upload w).
Proof. unfold upload_written. eauto 6 with quiet. Qed.

Lemma extraction_run_quiet (upload : MediaUpload) (w : World) :
  quiet w (fst (extraction_run E upload w)).
Proof.
  pose proof (upload_written_quiet upload w) as H0.
  unfold extraction_run.
  destruct (conv_status _) as [rc| |e0].
  - destruct (conv_output _) as [b|]; destruct (decide (rc = 0)) as [Hrc|Hrc];
      try destruct (from_mp3 E _) as [e|ms]; cbn [fst];
      repeat (first [ exact H0
                    | eapply quiet_trans; [|apply quiet_with_fs]
                    | eapply quiet_trans; [|apply quiet_show]
                    | eapply quiet_trans; [|apply quiet_log_call; reflexivity] ]).
  - cbn [fst].
    repeat (first [ exact H0
                  | eapply quiet_trans; [|apply quiet_with_fs]
                  | eapply quiet_trans; [|apply quiet_show]
                  | eapply quiet_trans; [|apply quiet_log_call; reflexivity] ]).
  - cbn [fst].
    repeat (first [ exact H0
                  | eapply quiet_trans; [|apply quiet_with_fs]
                  | eapply quiet_trans; [|apply quiet_show]
                  | eapply quiet_trans; [|apply quiet_log_call; reflexivity] ]).
Qed.

Lemma transcription_run_quiet (audio_file language : string) (w : World) :
  quiet w (fst (transcription_run E audio_file language w)).
Proof.
  unfold transcription_run.
  destruct (fs w !! audio_file) as [b|]; [|apply quiet_show].
  destruct (transcriptions_create E _ _ _) as [e|t]; cbn [fst];
    repeat (first [ apply quiet_refl
                  | eapply quiet_trans; [|apply quiet_with_fs]
                  | eapply quiet_trans; [|apply quiet_show]
                  | eapply quiet_trans; [|apply quiet_log_call; reflexivity] ]).
Qed.

Lemma analysis_world_quiet (language t : string) (w : World) :
  quiet w (analysis_world E language t w).
Proof.
  unfold analysis_world.
  eapply quiet_trans; [eapply quiet_trans|]; apply soft_world_quiet; reflexivity.
Qed.

Lemma branch_run_quiet (language : string) (n : party)
    (uploaded : option MediaUpload) (s : Session) :
  quiet (world s) (world (branch_run E language n uploaded s)).
Proof.
  unfold branch_run. destruct uploaded as [upload|]; [|apply quiet_show].
  set (w0 := show _ (world s)).
  pose proof (extraction_run_quiet upload w0) as Hx.
  assert (H0 : quiet (world s) w0) by apply quiet_show.
  destruct (extraction_run E upload w0) as [w1 [[a d]|[e|]]]; cbn [fst] in Hx.
  - pose proof (transcription_run_quiet a language (show (UiWrite (duration_line d)) w1))
      as Ht.
    assert (H1 : quiet (world s) (show (UiWrite (duration_line d)) w1)).
    { eapply quiet_trans; [|apply quiet_show]. eapply quiet_trans; eauto. }
    destruct (transcription_run E a language _) as [w2 [t|[e|]]]; cbn [fst] in Ht;
      cbn [world with_world].
    + eapply quiet_trans; [|apply analysis_world_quiet]. eapply quiet_trans; eauto.
    + eapply quiet_trans; [|apply quiet_show]. eapply quiet_trans; eauto.
    + eapply quiet_trans; eauto.
  - cbn [world with_world]. eapply quiet_trans; [|apply quiet_show].
    eapply quiet_trans; eauto.
  - cbn [world with_world]. eapply quiet_trans; eauto.
Qed.

Lemma shown_quiet (case_number : string) (n : party) (s : Session) :
  quiet (world s) (world (shown case_number n s))
  /\ locals (shown case_number n s) = locals s.
Proof.
  unfold shown. destruct (PyStr.truthy _); [|split; [apply quiet_refl|reflexivity]].
  cbn [world locals with_world]. split; [|reflexivity].
  repeat (eapply quiet_trans; [|apply quiet_show]). apply quiet_refl.
Qed.

(** *** What a processing block writes *)

Lemma branch_run_frame (language : string) (n : party)
    (uploaded : option MediaUpload) (s : Session) :
  let s' := branch_run E language n uploaded s in
  party_vars (other n) (locals s') = party_vars (other n) (locals s)
  /\ contradictions (locals s') = contradictions (locals s)
  /\ questions (locals s') = questions (locals s)
  /\ match uploaded with
     | None => locals s' = locals s
     | Some _ => True
     end.
Proof.
  unfold branch_run. destruct uploaded as [upload|]; [|auto].
  destruct (extraction_run E upload _) as [w1 [[a d]|[e|]]]; auto.
  destruct (transcription_run E a language _) as [w2 [t|[e|]]]; auto.
  cbn [locals]. rewrite party_vars_set_other. destruct n; auto.
Qed.

Lemma branches_run_facts (case_number : string) (inp : Inputs) (s : Session) :
  let s' := branches_run E case_number inp s in
  quiet (world s) (world s')
  /\ contradictions (locals s') = contradictions (locals s)
  /\ questions (locals s') = questions (locals s)
  /\ match uploaded_file_1 inp with
     | None => party1 (locals s') = unset_party
     | Some _ => True
     end
  /\ match uploaded_file_2 inp with
     | None => party2 (locals s') = unset_party
     | Some _ => True
     end.
Proof.
  unfold branches_run.
  set (lang := language_code (language inp)).
  set (s0 := reset_vars s).
  set (s1 := branch_run E lang Party1 (uploaded_file_1 inp) s0).
  set (s2 := branch_run E lang Party2 (uploaded_file_2 inp) s1).
  set (s3 := shown case_number Party1 s2).
  destruct (shown_quiet case_number Party2 s3) as [Q4 L4].
  destruct (shown_quiet case_number Party1 s2) as [Q3 L3]. fold s3 in Q3, L3.
  pose proof (branch_run_quiet lang Party2 (uploaded_file_2 inp) s1) as Q2. fold s2 in Q2.
  pose proof (branch_run_quiet lang Party1 (uploaded_file_1 inp) s0) as Q1. fold s1 in Q1.
  destruct (branch_run_frame lang Party2 (uploaded_file_2 inp) s1) as (F2 & C2 & A2 & N2).
  destruct (branch_run_frame lang Party1 (uploaded_file_1 inp) s0) as (F1 & C1 & A1 & N1).
  fold s2 in F2, C2, A2, N2. fold s1 in F1, C1, A1, N1.
  cbn [other party_vars] in F1, F2.
  cbv zeta. rewrite L4, L3.
  split; [|split; [|split; [|split]]].
  - change (world s) with (world s0). eauto using quiet_trans.
  - rewrite C2, C1. reflexivity.
  - rewrite A2, A1. reflexivity.
  - destruct (uploaded_file_1 inp); [exact I|]. rewrite F2, N1. reflexivity.
  - destruct (uploaded_file_2 inp); [exact I|]. rewrite N2, F1. reflexivity.
Qed.

Lemma compare_run_spec (s : Session) :
  let s' := compare_run E s in
  let t1 := transcription (party1 (locals s)) in
  let t2 := transcription (party2 (locals s)) in
  let found := generated E (contradictions_request t1 t2) in
  party1 (locals s') = party1 (locals s)
  /\ party2 (locals s') = party2 (locals s)
  /\ (exists u, ui (world s') = ui (world s) ++ u)
  /\ if PyStr.truthy t1 && PyStr.truthy t2 then
       calls (world s')
       = calls (world s) ++ [ChatCompletion (contradictions_request t1 t2);
                             ChatCompletion (questions_request found)]
       /\ contradictions (locals s') = Some found
       /\ questions (locals s') = Some (generated E (questions_request found))
     else s' = s.
Proof.
  unfold compare_run. cbv zeta.
  destruct (PyStr.truthy _ && PyStr.truthy _).
  - cbn [world locals]. repeat split.
    + autorewrite with world.
      destruct (soft_world_calls "Ошибка при формировании вопросов: "
                  (questions_request
                     (generated E
                        (contradictions_request (transcription (party1 (locals s)))
                           (transcription (party2 (locals s))))))
                  (soft_world E "Ошибка при проверке противоречий: "
                     (contradictions_request (transcription (party1 (locals s)))
                        (transcription (party2 (locals s))))
                     (show (UiMarkdown "## Сопоставление показаний и установление достоверности")
                        (world s)))) as [_ [u2 ->]].
      destruct (soft_world_calls "Ошибка при проверке противоречий: "
                  (contradictions_request (transcription (party1 (locals s)))
                     (transcription (party2 (locals s))))
                  (show (UiMarkdown "## Сопоставление показаний и установление достоверности")
                     (world s))) as [_ [u1 ->]].
      autorewrite with world. rewrite <- !app_assoc. eexists; reflexivity.
    + autorewrite with world.
      rewrite (proj1 (soft_world_calls _ _ _)), (proj1 (soft_world_calls _ _ _)).
      autorewrite with world. rewrite <- app_assoc. reflexivity.
  - repeat split. exists []. rewrite app_nil_r. reflexivity.
Qed.

Lemma comparison_requests_counted (t1 t2 found : string) (l : list call) :
  Forall (fun c => is_comparison_call c = false) l ->
  List.filter is_comparison_call
    (l ++ [ChatCompletion (contradictions_request t1 t2);
           ChatCompletion (questions_request found)])
  = [ChatCompletion (contradictions_request t1 t2);
     ChatCompletion (questions_request found)].
Proof.
  intros Hl. rewrite List.filter_app.
  replace (List.filter is_comparison_call l) with (@nil call).
  - reflexivity.
  - symmetry. induction Hl as [|c l Hc Hl IH]; [reflexivity|].
    cbn [List.filter]. rewrite Hc. exact IH.
Qed.

Lemma no_comparison_counted (l : list call) :
  Forall (fun c => is_comparison_call c = false) l ->
  List.filter is_comparison_call l = [].
Proof.
  induction 1 as [|c l Hc Hl IH]; [reflexivity|].
  cbn [List.filter]. rewrite Hc. exact IH.
Qed.

(** The comparison block in a run of the script: it runs exactly when both
    transcripts are non-empty at the end of the two processing blocks. *)
Lemma run_main_comparison (inp : Inputs) (w : World) :
  let s := fst (run_main E inp w) in
  let t1 := transcription (party1 (locals s)) in
  let t2 := transcription (party2 (locals s)) in
  let found := generated E (contradictions_request t1 t2) in
  if PyStr.truthy t1 && PyStr.truthy t2 then
    comparison_calls w s
    = [ChatCompletion (contradictions_request t1 t2);
       ChatCompletion (questions_request found)]
    /\ contradictions (locals s) = Some found
    /\ questions (locals s) = Some (generated E (questions_request found))
  else
    comparison_calls w s = []
    /\ contradictions (locals s) = None
    /\ questions (locals s) = None.
Proof.
  rewrite run_main_cases. unfold main_run, comparison_calls, calls_since.
  set (w1 := form_shown E w).
  assert (Hw1 : calls w1 = calls w ++ [Subprocess probe_command]).
  { unfold w1, form_shown, probed. autorewrite with world. reflexivity. }
  assert (Hidle : forall w' : World,
             calls w' = calls w ++ [Subprocess probe_command] ->
             List.filter is_comparison_call (drop (length (calls w)) (calls w')) = []
             /\ contradictions fresh_locals = None /\ questions fresh_locals = None).
  { intros w' ->. rewrite drop_app_length. auto. }
  destruct (probe_escapes E) as [e|];
    [apply Hidle; unfold probed; autorewrite with world; reflexivity|].
  destruct (probe_ok E);
    [destruct (secrets E "openai_api_key") as [key|]; [destruct (start_pressed inp)|]|];
    cbn [fst]; fold w1;
    try (apply Hidle; unfold probed; autorewrite with world; rewrite ?Hw1; reflexivity).
  set (s5 := branches_run E (generate_case_number E) inp (start_session w1)).
  destruct (branches_run_facts (generate_case_number E) inp (start_session w1))
    as ([(l & Hl & Fl) _] & Hc & Hq & _).
  fold s5 in Hl, Hc, Hq. cbn [world locals start_session] in Hl, Hc, Hq.
  destruct (compare_run_spec s5) as (P1 & P2 & _ & Hcmp).
  cbn [world locals with_world]. rewrite calls_show_all, P1, P2.
  destruct (PyStr.truthy _ && PyStr.truthy _).
  - destruct Hcmp as (Hcalls & Hfound & Hasked).
    split; [|split; assumption].
    rewrite Hcalls, Hl, Hw1.
    rewrite <- !app_assoc, drop_app_length.
    apply (comparison_requests_counted _ _ _ (Subprocess probe_command :: l)).
    constructor; [reflexivity|exact Fl].
  - rewrite Hcmp, Hc, Hq. split; [|split; reflexivity].
    rewrite Hl, Hw1.
    rewrite <- !app_assoc, drop_app_length.
    apply (no_comparison_counted (Subprocess probe_command :: l)).
    constructor; [reflexivity|exact Fl].
Qed.

Lemma run_main_absent_upload (inp : Inputs) (w : World) :
  let s := fst (run_main E inp w) in
  match uploaded_file_1 inp with
  | None => party1 (locals s) = unset_party
  | Some _ => True
  end
  /\ match uploaded_file_2 inp with
     | None => party2 (locals s) = unset_party
     | Some _ => True
     end.
Proof.
  rewrite run_main_cases. unfold main_run.
  assert (Hidle : match uploaded_file_1 inp with
                  | None => party1 fresh_locals = unset_party
                  | Some _ => True
                  end
                  /\ match uploaded_file_2 inp with
                     | None => party2 fresh_locals = unset_party
                     | Some _ => True
                     end).
  { split; [destruct (uploaded_file_1 inp)|destruct (uploaded_file_2 inp)];
      (exact I || reflexivity). }
  destruct (probe_escapes E) as [e|]; [exact Hidle|].
  destruct (probe_ok E);
    [destruct (secrets E "openai_api_key") as [key|]; [destruct (start_pressed inp)|]|];
    cbn [fst]; try exact Hidle.
  cbn [locals with_world].
  destruct (compare_run_spec
              (branches_run E (generate_case_number E) inp
                 (start_session (form_shown E w))))
    as (P1 & P2 & _).
  rewrite P1, P2.
  destruct (branches_run_facts (generate_case_number E) inp
              (start_session (form_shown E w)))
    as (_ & _ & _ & N1 & N2).
  split; assumption.
Qed.

Lemma run_main_probe_first (inp : Inputs) (w : World) :
  exists rest : list call,
    calls_since w (world (fst (run_main E inp w))) = Subprocess probe_command :: rest.
Proof.
  rewrite run_main_cases. unfold main_run, calls_since.
  set (w1 := form_shown E w).
  assert (Hw1 : calls w1 = calls w ++ [Subprocess probe_command]).
  { unfold w1, form_shown, probed. autorewrite with world. reflexivity. }
  destruct (probe_escapes E) as [e|];
    [cbn [fst world start_session]; unfold probed; autorewrite with world;
     rewrite drop_app_length; eexists; reflexivity|].
  destruct (probe_ok E);
    [destruct (secrets E "openai_api_key") as [key|]; [destruct (start_pressed inp)|]|];
    cbn [fst world start_session with_world]; fold w1; unfold probed;
    autorewrite with world; rewrite ?Hw1;
    try (rewrite drop_app_length; eexists; reflexivity).
  set (s5 := branches_run E (generate_case_number E) inp _).
  destruct (branches_run_facts (generate_case_number E) inp (start_session w1))
    as ([(l & Hl & _) _] & _).
  fold s5 in Hl. cbn [world start_session] in Hl. rewrite Hw1 in Hl.
  destruct (compare_run_spec s5) as (_ & _ & _ & Hcmp).
  destruct (PyStr.truthy _ && PyStr.truthy _).
  - destruct Hcmp as (-> & _). rewrite Hl, <- !app_assoc, drop_app_length.
    eexists; reflexivity.
  - rewrite Hcmp, Hl, <- !app_assoc, drop_app_length. eexists; reflexivity.
Qed.

(** *** A party's result from its own upload *)

Lemma branch_run_result (language : string) (n : party)
    (uploaded : option MediaUpload) (s : Session) :
  converter_writes_output E ->
  let s' := branch_run E language n uploaded s in
  party_vars n (locals s')
  = match uploaded with
    | Some upload =>
        match branch_transcript E language upload with
        | Some t => analysis E language t
        | None => party_vars n (locals s)
        end
    | None => party_vars n (locals s)
    end
  /\ match uploaded with
     | Some upload =>
         branch_transcript E language upload = None ->
         exists (e : exception) (u : list ui_element),
           ui (world s') = u ++ [UiError (branch_message n e)]
     | None => True
     end.
Proof.
  intros Hout. unfold branch_run.
  destruct uploaded as [upload|]; [|cbv zeta; split; [reflexivity|exact I]].
  set (w0 := show _ (world s)).
  unfold branch_transcript, extraction_run.
  pose proof (temp_paths_differ E w0) as Hav.
  set (v := temp_video_path E w0) in *. set (a := temp_audio_path E w0) in *.
  set (w1 := log_call _ (upload_written E upload w0)).
  specialize (Hout (Some (upload_data upload))).
  assert (Hfail : forall (w' : World) (e : exception),
             party_vars n (locals (with_world (show (UiError (branch_message n e)) w') s))
             = party_vars n (locals s)
             /\ exists (e0 : exception) (u : list ui_element),
                 ui (world (with_world (show (UiError (branch_message n e)) w') s))
                 = u ++ [UiError (branch_message n e0)]).
  { intros w' e. split; [reflexivity|]. exists e, (ui w'). reflexivity. }
  destruct (ffmpeg_convert E (Some (upload_data upload))) as [[rc| |e0] out];
    cbn [conv_status conv_output] in *.
  - destruct (decide (rc = 0)) as [->|Hrc].
    + destruct Hout as [mp3 ->]; [reflexivity|].
      rewrite fs_with_fs, lookup_insert_eq.
      destruct (from_mp3 E (Some mp3)) as [e|ms].
      * cbv zeta. destruct (Hfail (with_fs (delete v)
                                     (show (UiError (extraction_message e))
                                        (log_call (DecodeMp3 a) (with_fs <[a:=mp3]> w1)))) e)
          as [H1 H2].
        split; [exact H1|intros _; exact H2].
      * unfold transcription_run. autorewrite with world.
        rewrite lookup_delete_ne by (intros H; apply Hav; symmetry; exact H).
        rewrite lookup_insert_eq.
        destruct (transcriptions_create E "whisper-1" mp3 language) as [e|t].
        -- cbv zeta.
           match goal with
           | |- context [with_world (show (UiError (branch_message n e)) ?w') s] =>
               destruct (Hfail w' e) as [H1 H2]
           end.
           split; [exact H1|intros _; exact H2].
        -- cbv zeta. cbn [locals]. rewrite party_vars_set_same.
           split; [reflexivity|discriminate].
    + cbv zeta.
      match goal with
      | |- context [with_world (show (UiError (branch_message n ?e)) ?w') s] =>
          destruct (Hfail w' e) as [H1 H2]
      end.
      destruct out; (split; [exact H1|intros _; exact H2]).
  - cbv zeta.
    match goal with
    | |- context [with_world (show (UiError (branch_message n ?e)) ?w') s] =>
        destruct (Hfail w' e) as [H1 H2]
    end.
    destruct out; (split; [exact H1|intros _; exact H2]).
  - cbv zeta.
    match goal with
    | |- context [with_world (show (UiError (branch_message n ?e)) ?w') s] =>
        destruct (Hfail w' e) as [H1 H2]
    end.
    destruct out; (split; [exact H1|intros _; exact H2]).
Qed.

Lemma process_party_isolated (client : Client) (language : string) (n : party)
    (uploaded : option MediaUpload) (s : Session) :
  block_isolated E client language n uploaded s.
Proof.
  unfold block_isolated. rewrite process_party_run. cbn [fst snd].
  split; [reflexivity|].
  split; [apply branch_run_frame|].
  destruct uploaded as [upload|]; [|reflexivity].
  cbv zeta. unfold branch_run. rewrite extract_audio_run.
  pose proof (extraction_run_no_stop upload
                (show (UiMarkdown ("### Обработка показаний лица №" +:+ party_number n))
                      (world s))) as Hx.
  destruct (extraction_run E upload _) as [w1 [[a d]|[e|]]];
    [|reflexivity|apply Hx; reflexivity].
  rewrite transcribe_audio_run.
  pose proof (transcription_run_no_stop a language
                (show (UiWrite (duration_line d)) w1)) as Ht.
  destruct (transcription_run E a language _) as [w2 [t|[e|]]];
    [|reflexivity|apply Ht; reflexivity].
  cbn [locals]. apply party_vars_set_same.
Qed.

Lemma quiet_shows (w w' : World) (u : ui_element) :
  quiet w w' -> In u (ui w) -> In u (ui w').
Proof.
  intros [_ (l & ->)] Hu. apply in_or_app. left. exact Hu.
Qed.

Lemma branches_run_result (case_number : string) (inp : Inputs) (s : Session) (n : party) :
  converter_writes_output E ->
  let lang := language_code (language inp) in
  let s' := branches_run E case_number inp s in
  party_vars n (locals s') = party_result E lang (uploaded_file n inp)
  /\ (branch_fails E lang (uploaded_file n inp) ->
      exists e : exception, In (UiError (branch_message n e)) (ui (world s'))).
Proof.
  intros Hout. cbv zeta. unfold branches_run.
  set (lang := language_code (language inp)).
  set (s0 := reset_vars s).
  set (s1 := branch_run E lang Party1 (uploaded_file_1 inp) s0).
  set (s2 := branch_run E lang Party2 (uploaded_file_2 inp) s1).
  set (s3 := shown case_number Party1 s2).
  destruct (shown_quiet case_number Party2 s3) as [Q4 L4].
  destruct (shown_quiet case_number Party1 s2) as [Q3 L3]. fold s3 in Q3, L3.
  pose proof (branch_run_quiet lang Party2 (uploaded_file_2 inp) s1) as Q2. fold s2 in Q2.
  destruct (branch_run_frame lang Party2 (uploaded_file_2 inp) s1) as (F2 & _).
  destruct (branch_run_frame lang Party1 (uploaded_file_1 inp) s0) as (F1 & _).
  fold s2 in F2. fold s1 in F1. cbn [other] in F1, F2.
  destruct (branch_run_result lang Party1 (uploaded_file_1 inp) s0 Hout) as [R1 E1].
  destruct (branch_run_result lang Party2 (uploaded_file_2 inp) s1 Hout) as [R2 E2].
  fold s1 in R1, E1. fold s2 in R2, E2.
  rewrite L4, L3. unfold party_result, branch_fails.
  destruct n; cbn [uploaded_file].
  - rewrite F2, R1. split.
    + destruct (uploaded_file_1 inp) as [u|]; [|reflexivity].
      destruct (branch_transcript E lang u); reflexivity.
    + intros (u & Hu & Hn). rewrite Hu in E1.
      destruct (E1 Hn) as (e & pre & Hui). exists e.
      apply (quiet_shows (world s3)); [exact Q4|].
      apply (quiet_shows (world s2)); [exact Q3|].
      apply (quiet_shows (world s1)); [exact Q2|].
      rewrite Hui. apply in_or_app. right. left. reflexivity.
  - rewrite R2, F1. split.
    + destruct (uploaded_file_2 inp) as [u|]; [|reflexivity].
      destruct (branch_transcript E lang u); reflexivity.
    + intros (u & Hu & Hn). rewrite Hu in E2.
      destruct (E2 Hn) as (e & pre & Hui). exists e.
      apply (quiet_shows (world s3)); [exact Q4|].
      apply (quiet_shows (world s2)); [exact Q3|].
      rewrite Hui. apply in_or_app. right. left. reflexivity.
Qed.

End MainFacts.

(** ** The case number *)

Module CaseNumberFacts.
Import PyStr.

Lemma digits_check_spec (n : nat) (s : string) :
  digits_check n s = true -> digits n s.
Proof.
  unfold digits_check, digits. intros H.
  apply andb_true_iff in H as [Hl Hd]. apply Nat.eqb_eq in Hl. auto.
Qed.

Lemma zero_padded_below (width bound : nat) (k : N) :
  forallb (fun i => digits_check width (zero_padded width (N.of_nat i))) (seq 0 bound) = true ->
  (k < N.of_nat bound)%N ->
  digits width (zero_padded width k).
Proof.
  intros Hall Hk. apply digits_check_spec.
  rewrite forallb_forall in Hall.
  specialize (Hall (N.to_nat k)). rewrite N2Nat.id in Hall.
  apply Hall, in_seq. lia.
Qed.

Lemma zero_padded_two (k : N) : (k < 100)%N -> digits 2 (zero_padded 2 k).
Proof. apply (zero_padded_below 2 100). vm_compute. reflexivity. Qed.

Lemma zero_padded_four (k : N) : (k < 10000)%N -> digits 4 (zero_padded 4 k).
Proof. apply (zero_padded_below 4 10000). vm_compute. reflexivity. Qed.

Lemma all_chars_append (P : ascii -> bool) (s t : string) :
  all_chars P (s +:+ t) = all_chars P s && all_chars P t.
Proof.
  induction s as [|a s IH]; [reflexivity|].
  rewrite PyStrFacts.append_cons. simpl. rewrite IH. apply andb_assoc.
Qed.

Lemma digits_append (n m : nat) (s t : string) :
  digits n s -> digits m t -> digits (n + m) (s +:+ t).
Proof.
  intros [Hn Hs] [Hm Ht]. split.
  - rewrite PyStrFacts.length_append. lia.
  - rewrite all_chars_append, Hs, Ht. reflexivity.
Qed.

Lemma strftime_Ymd_digits (d : datetime) :
  valid_datetime d -> digits 8 (strftime_Ymd d).
Proof.
  intros (Hy & Hm & Hd & _). unfold strftime_Ymd.
  apply (digits_append 4 4); [apply zero_padded_four; lia|].
  apply (digits_append 2 2); apply zero_padded_two; lia.
Qed.

Lemma strftime_HMS_digits (d : datetime) :
  valid_datetime d -> digits 6 (strftime_HMS d).
Proof.
  intros (_ & _ & _ & Hh & Hm & Hs). unfold strftime_HMS.
  apply (digits_append 2 4); [apply zero_padded_two; lia|].
  apply (digits_append 2 2); apply zero_padded_two; lia.
Qed.

End CaseNumberFacts.

(** ** The script *)

(** C8 as stated fails: the identifier does not begin with the Latin letter
    M. *)
Lemma case_number_prefix_not_latin :
  ~ exists date time : string,
      generate_case_number sample_env = "M-" +:+ date +:+ "-" +:+ time.
Proof.
  intros (date & time & H).
  apply (f_equal (fun s => match s with String c _ => Some c | EmptyString => None end)) in H.
  vm_compute in H. discriminate H.
Qed.

(** C8, amended.  At every valid instant the case number is the Cyrillic
    capital letter Em, a hyphen, the eight digits of the date [%Y%m%d], a
    hyphen and the six digits of the time [%H%M%S]. *)
Theorem case_number_form (E : Env) :
  valid_datetime (datetime_now E) ->
  exists date time : string,
    generate_case_number E = cyrillic_em +:+ "-" +:+ date +:+ "-" +:+ time
    /\ date = strftime_Ymd (datetime_now E)
    /\ time = strftime_HMS (datetime_now E)
    /\ digits 8 date
    /\ digits 6 time.
Proof.
  intros Hv. exists (strftime_Ymd (datetime_now E)), (strftime_HMS (datetime_now E)).
  split; [reflexivity|]. split; [reflexivity|]. split; [reflexivity|].
  split.
  - apply CaseNumberFacts.strftime_Ymd_digits, Hv.
  - apply CaseNumberFacts.strftime_HMS_digits, Hv.
Qed.

Lemma case_number_form_witness :
  valid_datetime (datetime_now sample_env)
  /\ exists date time : string,
      generate_case_number sample_env = cyrillic_em +:+ "-" +:+ date +:+ "-" +:+ time
      /\ date = strftime_Ymd (datetime_now sample_env)
      /\ time = strftime_HMS (datetime_now sample_env)
      /\ digits 8 date
      /\ digits 6 time.
Proof.
  assert (H : valid_datetime (datetime_now sample_env)).
  { unfold valid_datetime. simpl. lia. }
  split; [exact H | apply (case_number_form sample_env H)].
Defined.

(** C10 as stated fails: when launching the probe is refused,
    [check_ffmpeg] returns no boolean but raises [PermissionError], and the
    exception leaves [main] too. *)
Lemma check_ffmpeg_can_raise :
  snd (check_ffmpeg denied_env empty_world)
  = Raise (Exception (PermissionError "ffmpeg"))
  /\ (~ exists (w' : World) (found : bool),
         check_ffmpeg denied_env empty_world = (w', Return found))
  /\ snd (run_main denied_env (both_uploads good_upload good_upload) empty_world)
     = Raise (Exception (PermissionError "ffmpeg")).
Proof.
  split; [reflexivity|]. split; [|reflexivity].
  intros (w' & found & H). rewrite check_ffmpeg_run in H.
  injection H as _ H. discriminate H.
Qed.

(** C10, amended.  The script first probes the converter: [check_ffmpeg]
    runs [ffmpeg -version]; it returns [True] exactly when that run exits
    with status 0 and returns [False], without raising, when it exits
    otherwise or the executable is missing.  Any other exception of
    launching the probe is not caught: it leaves [check_ffmpeg] and ends the
    run with only the style sheet shown.  Every run starts with the probe.
    When [check_ffmpeg] returns [False] the run shows the error and stops:
    nothing else is called and no variable of the processing is set.  When
    it returns [True] the run is not stopped and ends normally. *)
Theorem ffmpeg_probe_gate (E : Env) (inp : Inputs) (w : World) :
  check_ffmpeg E w
  = (log_call (Subprocess probe_command) w,
     match probe_escapes E with
     | Some e => Raise (Exception e)
     | None => Return (probe_ok E)
     end)
  /\ probe_ok E = bool_decide (ffmpeg_version E = Exited 0)
  /\ match ffmpeg_version E with
     | Exited _ | ExecutableMissing => probe_escapes E = None
     | LaunchFailed (CalledProcessError _ _) | LaunchFailed (FileNotFoundError _) =>
         probe_escapes E = None
     | LaunchFailed e => probe_escapes E = Some e
     end
  /\ (exists rest : list call,
         calls_since w (world (fst (run_main E inp w))) = Subprocess probe_command :: rest)
  /\ match probe_escapes E with
     | Some e => run_main E inp w = (start_session (probed w), Raise (Exception e))
     | None =>
         if probe_ok E then snd (run_main E inp w) = Return tt
         else run_main E inp w
              = ({| world :=
                      show (UiError "FFmpeg не установлен. Пожалуйста, установите FFmpeg для работы с видео.")
                           (log_call (Subprocess probe_command) (show page_style w));
                    locals := fresh_locals |},
                 Raise StopException)
     end.
Proof.
  split; [apply check_ffmpeg_run|]. split; [|split; [|split]].
  - unfold probe_ok.
    destruct (ffmpeg_version E) as [[|rc|rc]| |e];
      [rewrite bool_decide_eq_true_2 by reflexivity
      |rewrite bool_decide_eq_false_2 by discriminate..]; reflexivity.
  - unfold probe_escapes. destruct (ffmpeg_version E) as [rc| |[]]; reflexivity.
  - apply run_main_probe_first.
  - rewrite run_main_cases. unfold main_run.
    destruct (probe_escapes E); [reflexivity|].
    destruct (probe_ok E); [|reflexivity].
    destruct (secrets E "openai_api_key"); [|reflexivity].
    destruct (start_pressed inp); reflexivity.
Qed.

(** C1. In every run of the script the comparison step runs exactly when
    both transcripts are non-empty: then the two comparison requests
    (contradictions, then questions) are the comparison calls of the run and
    both results are assigned; otherwise no comparison call is made and
    neither result exists.  A party without upload has the empty
    transcript, so the comparison is skipped then. *)
Theorem comparison_iff_both_transcripts (E : Env) (inp : Inputs) (w : World) :
  let s := fst (run_main E inp w) in
  let t1 := transcription (party1 (locals s)) in
  let t2 := transcription (party2 (locals s)) in
  let found := generated E (contradictions_request t1 t2) in
  (if PyStr.truthy t1 && PyStr.truthy t2 then
     comparison_calls w s
     = [ChatCompletion (contradictions_request t1 t2);
        ChatCompletion (questions_request found)]
     /\ contradictions (locals s) = Some found
     /\ questions (locals s) = Some (generated E (questions_request found))
   else
     comparison_calls w s = []
     /\ contradictions (locals s) = None
     /\ questions (locals s) = None)
  /\ match uploaded_file_1 inp with
     | None => t1 = ""
     | Some _ => True
     end
  /\ match uploaded_file_2 inp with
     | None => t2 = ""
     | Some _ => True
     end.
Proof.
  cbv zeta. split; [apply run_main_comparison|].
  destruct (run_main_absent_upload E inp w) as [H1 H2].
  split.
  - destruct (uploaded_file_1 inp); [exact I|]. rewrite H1. reflexivity.
  - destruct (uploaded_file_2 inp); [exact I|]. rewrite H2. reflexivity.
Qed.

(** C7. When both transcripts are non-empty the questions request is made
    from whatever [check_contradictions] handed back, the empty text
    included, and its result is assigned; and [formulate_questions] on the
    empty text returns a text in every world. *)
Theorem questions_follow_contradictions (E : Env) (inp : Inputs) (w : World) :
  let s := fst (run_main E inp w) in
  let t1 := transcription (party1 (locals s)) in
  let t2 := transcription (party2 (locals s)) in
  let found := generated E (contradictions_request t1 t2) in
  PyStr.truthy t1 = true ->
  PyStr.truthy t2 = true ->
  contradictions (locals s) = Some found
  /\ In (ChatCompletion (questions_request found)) (calls_since w (world s))
  /\ questions (locals s) = Some (generated E (questions_request found))
  /\ forall (client : Client) (w0 : World),
       formulate_questions E client "" w0
       = (soft_world E "Ошибка при формировании вопросов: " (questions_request "") w0,
          Return (generated E (questions_request ""))).
Proof.
  cbv zeta. intros H1 H2.
  pose proof (run_main_comparison E inp w) as H. cbv zeta in H.
  rewrite H1, H2 in H. destruct H as (Hcalls & Hfound & Hasked).
  split; [exact Hfound|]. split; [|split; [exact Hasked|]].
  - assert (Hin : In (ChatCompletion
                        (questions_request
                           (generated E
                              (contradictions_request
                                 (transcription (party1 (locals (fst (run_main E inp w)))))
                                 (transcription (party2 (locals (fst (run_main E inp w)))))))))
                     (comparison_calls w (fst (run_main E inp w)))).
    { rewrite Hcalls. right. left. reflexivity. }
    unfold comparison_calls in Hin. apply List.filter_In in Hin. apply Hin.
  - intros client w0. rewrite formulate_questions_run. apply soft_run_returns.
Qed.

Lemma questions_follow_contradictions_witness :
  let s := fst (run_main sample_env (both_uploads good_upload good_upload) empty_world) in
  generated sample_env (contradictions_request "I was at home." "I was at home.") = ""
  /\ contradictions (locals s) = Some ""
  /\ In (ChatCompletion (questions_request "")) (calls_since empty_world (world s))
  /\ questions (locals s) = Some "noted".
Proof.
  pose proof (questions_follow_contradictions sample_env
                (both_uploads good_upload good_upload) empty_world) as H.
  cbv zeta in H.
  assert (H1 : PyStr.truthy
                 (transcription
                    (party1 (locals (fst (run_main sample_env
                                            (both_uploads good_upload good_upload)
                                            empty_world))))) = true)
    by (vm_compute; reflexivity).
  assert (H2 : PyStr.truthy
                 (transcription
                    (party2 (locals (fst (run_main sample_env
                                            (both_uploads good_upload good_upload)
                                            empty_world))))) = true)
    by (vm_compute; reflexivity).
  destruct (H H1 H2) as (Hc & Hi & Hq & _).
  cbv zeta. split; [vm_compute; reflexivity|].
  split; [rewrite Hc; vm_compute; reflexivity|].
  split; [|rewrite Hq; vm_compute; reflexivity].
  revert Hi. vm_compute. exact (fun x => x).
Defined.

(** C5. A party's processing block never raises and never writes the other
    party's variables; an exception of its extraction or transcription is
    caught there, shown under the party's caption, and leaves the party's
    own variables as they were (the transcript absent).  In a run of the
    script (converter probed, client built, start pressed, and a converter
    that writes its output when it exits with status 0) each party's
    variables are therefore the result of that party's own upload: the four
    texts of its transcript, or the unset variables when its branch failed,
    whatever happened in the other branch. *)
Theorem branch_isolation (E : Env) (inp : Inputs) (w : World) (key : string) :
  (forall (client : Client) (language : string) (n : party)
          (uploaded : option MediaUpload) (s0 : Session),
      block_isolated E client language n uploaded s0)
  /\ (converter_writes_output E ->
      probe_ok E = true ->
      secrets E "openai_api_key" = Some key ->
      start_pressed inp = true ->
      let lang := language_code (language inp) in
      let s := fst (run_main E inp w) in
      snd (run_main E inp w) = Return tt
      /\ (forall n : party,
             party_vars n (locals s) = party_result E lang (uploaded_file n inp))
      /\ (forall n : party,
             branch_fails E lang (uploaded_file n inp) ->
             party_vars n (locals s) = unset_party
             /\ exists e : exception, In (UiError (branch_message n e)) (ui (world s)))).
Proof.
  split; [intros; apply process_party_isolated|].
  intros Hout Hprobe Hkey Hstart. cbv zeta.
  rewrite run_main_cases. unfold main_run.
  rewrite (probe_ok_returns E Hprobe), Hprobe, Hkey, Hstart.
  cbn [fst snd locals world with_world].
  set (s5 := branches_run E (generate_case_number E) inp _).
  destruct (compare_run_spec E s5) as (P1 & P2 & (u & Hu) & _).
  assert (Hvars : forall n, party_vars n (locals (compare_run E s5))
                            = party_vars n (locals s5)).
  { intros [|]; cbn [party_vars]; assumption. }
  split; [reflexivity|]. split.
  - intros n. rewrite Hvars. apply branches_run_result, Hout.
  - intros n Hfail. rewrite Hvars.
    destruct (branches_run_result E (generate_case_number E) inp
                (start_session (form_shown E w)) n Hout)
      as [Hres Herr].
    fold s5 in Hres, Herr. split.
    + rewrite Hres. destruct Hfail as (upload & -> & Hnone).
      unfold party_result. rewrite Hnone. reflexivity.
    + destruct (Herr Hfail) as (e & Hin). exists e.
      rewrite ui_show_all, Hu. apply in_or_app. left. apply in_or_app. left. exact Hin.
Qed.

Lemma party_vars_first (l : Locals) : party_vars Party1 l = party1 l.
Proof. reflexivity. Qed.

Lemma party_vars_second (l : Locals) : party_vars Party2 l = party2 l.
Proof. reflexivity. Qed.

Lemma sample_converter_writes_output : converter_writes_output sample_env.
Proof.
  intros [[|b rest]|]; [discriminate| |discriminate].
  destruct b; cbn; intros H; try discriminate H; eauto.
Qed.

Lemma branch_isolation_witness :
  let inp := both_uploads malformed_upload good_upload in
  let s := fst (run_main sample_env inp empty_world) in
  (converter_writes_output sample_env
   /\ probe_ok sample_env = true
   /\ secrets sample_env "openai_api_key" = Some "sk-sample"
   /\ start_pressed inp = true
   /\ branch_fails sample_env "ru" (uploaded_file Party1 inp))
  /\ party1 (locals s) = unset_party
  /\ party2 (locals s) = analysis sample_env "ru" "I was at home."
  /\ exists e : exception, In (UiError (branch_message Party1 e)) (ui (world s)).
Proof.
  cbv zeta.
  assert (Hf : branch_fails sample_env "ru"
                 (uploaded_file Party1 (both_uploads malformed_upload good_upload))).
  { exists malformed_upload. split; reflexivity. }
  destruct (branch_isolation sample_env (both_uploads malformed_upload good_upload)
              empty_world "sk-sample") as [_ Hrun].
  destruct (Hrun sample_converter_writes_output eq_refl eq_refl eq_refl)
    as (_ & Hres & Hfail).
  destruct (Hfail Party1 Hf) as [Hunset Hshown].
  pose proof (Hres Party2) as Hsecond.
  split; [|split; [|split]].
  - repeat split; try reflexivity; [apply sample_converter_writes_output | exact Hf].
  - rewrite <- (party_vars_first (locals _)). exact Hunset.
  - rewrite <- (party_vars_second (locals _)), Hsecond. reflexivity.
  - exact Hshown.
Defined.

(** ** Evaluations *)

Example splitext_plain :
  OsPath.splitext "/tmp/tmpab12cd_9.mp4" = ("/tmp/tmpab12cd_9", ".mp4").
Proof. reflexivity. Qed.

Example splitext_dotted_dir : OsPath.splitext "/var/run.d/clip" = ("/var/run.d/clip", "").
Proof. reflexivity. Qed.

Example splitext_hidden : OsPath.splitext "/home/u/.profile" = ("/home/u/.profile", "").
Proof. reflexivity. Qed.

Example splitext_last_dot : OsPath.splitext "a.tar.gz" = ("a.tar", ".gz").
Proof. reflexivity. Qed.

Example join_plain : OsPath.join "/tmp" "tmpx.mp4" = "/tmp/tmpx.mp4".
Proof. reflexivity. Qed.

Example join_trailing : OsPath.join "/tmp/" "tmpx.mp4" = "/tmp/tmpx.mp4".
Proof. reflexivity. Qed.

Example strip_spaces :
  PyStr.strip (PyStr.of_bytes [32; 10; 194; 160; 104; 105; 32; 226; 128; 137; 9; 10]%N) = "hi".
Proof. reflexivity. Qed.

Example zero_padded_7 : PyStr.zero_padded 2 7 = "07".
Proof. reflexivity. Qed.

Example case_number_sample : generate_case_number sample_env = "М-20240307-090500".
Proof. reflexivity. Qed.

Example good_upload_extracted :
  extract_audio sample_env good_upload empty_world
  = ({| fs := {[ "/tmp/tmpabcdefgh.mp3" := [Byte.x02] ]};
        tmp_drawn := 1;
        calls := [Subprocess (extraction_command "/tmp/tmpabcdefgh.mp4" "/tmp/tmpabcdefgh.mp3");
                  DecodeMp3 "/tmp/tmpabcdefgh.mp3"];
        ui := [] |},
     Return ("/tmp/tmpabcdefgh.mp3", seconds 12345)).
Proof. vm_compute. reflexivity. Qed.

Example one_upload_skips_comparison :
  let s := fst (run_main sample_env
                  {| uploaded_file_1 := Some good_upload; uploaded_file_2 := None;
                     language := ru; start_pressed := true |}
                  empty_world) in
  transcription (party1 (locals s)) = "I was at home."
  /\ contradictions (locals s) = None
  /\ questions (locals s) = None
  /\ fs (world s) = ∅.
Proof. vm_compute. repeat split. Qed.

(** * Further properties of the stages *)

Section StageFacts.

Variable E : Env.

Lemma soft_world_fs (caption : string) (request : chat_request) (w : World) :
  fs (soft_world E caption request w) = fs w.
Proof.
  unfold soft_world, soft_run. destruct (generate E request); reflexivity.
Qed.

Lemma soft_world_ui (caption : string) (request : chat_request) (w : World) :
  ui (soft_world E caption request w)
  = ui w ++ match generate E request with
            | inl e => [UiError (caption +:+ str e)]
            | inr _ => []
            end.
Proof.
  unfold soft_world, soft_run. destruct (generate E request); cbn [fst];
    autorewrite with world; rewrite ?app_nil_r; reflexivity.
Qed.

Lemma analysis_world_fs (language t : string) (w : World) :
  fs (analysis_world E language t w) = fs w.
Proof. unfold analysis_world. rewrite !soft_world_fs. reflexivity. Qed.

Lemma analysis_world_calls (language t : string) (w : World) :
  calls (analysis_world E language t w)
  = calls w ++ [ChatCompletion (summarize_request t language);
                ChatCompletion (sequence_request t);
                ChatCompletion (key_facts_request t)].
Proof.
  unfold analysis_world.
  rewrite !(proj1 (soft_world_calls E _ _ _)), <- !app_assoc. reflexivity.
Qed.

Lemma upload_written_fs (upload : MediaUpload) (w : World) (q : string) :
  q <> temp_video_path E w ->
  fs (upload_written E upload w) !! q = fs w !! q.
Proof.
  intros Hq. unfold upload_written. rewrite !fs_with_fs.
  rewrite !lookup_insert_ne by congruence. reflexivity.
Qed.

(** The file system after [extract_audio]. *)
Lemma extraction_run_fs (upload : MediaUpload) (w : World) :
  let r := extraction_run E upload w in
  let c := ffmpeg_convert E (Some (upload_data upload)) in
  fs (fst r) !! temp_video_path E w = None
  /\ fs (fst r) !! temp_audio_path E w
     = match conv_status c, conv_output c with
       | Exited _, Some b => Some b
       | _, _ => fs w !! temp_audio_path E w
       end
  /\ forall q : string,
       q <> temp_video_path E w -> q <> temp_audio_path E w ->
       fs (fst r) !! q = fs w !! q.
Proof.
  cbv zeta. unfold extraction_run.
  pose proof (temp_paths_differ E w) as Hav.
  pose proof (upload_written_fs upload w) as Hw.
  set (v := temp_video_path E w) in *. set (a := temp_audio_path E w) in *.
  set (w0 := upload_written E upload w) in *.
  destruct (ffmpeg_convert E (Some (upload_data upload))) as [[rc| |e0] out];
    cbn [conv_status conv_output].
  - destruct out as [b|]; destruct (decide (rc = 0)) as [Hrc|Hrc];
      try destruct (from_mp3 E _) as [e|ms]; cbn [fst];
      autorewrite with world;
      (split; [apply lookup_delete_eq|]);
      (split; [rewrite lookup_delete_ne by congruence;
               rewrite ?lookup_insert_eq; auto
              |intros q Hqv Hqa; rewrite lookup_delete_ne by congruence;
               rewrite ?lookup_insert_ne by congruence; auto]).
  - destruct out as [b|]; cbn [fst]; autorewrite with world;
      (split; [apply lookup_delete_eq|]);
      (split; [rewrite lookup_delete_ne by congruence; auto
              |intros q Hqv Hqa; rewrite lookup_delete_ne by congruence; auto]).
  - destruct out as [b|]; cbn [fst]; autorewrite with world;
      (split; [apply lookup_delete_eq|]);
      (split; [rewrite lookup_delete_ne by congruence; auto
              |intros q Hqv Hqa; rewrite lookup_delete_ne by congruence; auto]).
Qed.

(** The logs after [extract_audio], by outcome. *)
Lemma extraction_run_logs (upload : MediaUpload) (w : World) :
  let r := extraction_run E upload w in
  let cmd := extraction_command (temp_video_path E w) (temp_audio_path E w) in
  let decode := DecodeMp3 (temp_audio_path E w) in
  match snd r with
  | Return (audio_path, _) =>
      audio_path = temp_audio_path E w
      /\ calls (fst r) = calls w ++ [Subprocess cmd; decode]
      /\ ui (fst r) = ui w
  | Raise (Exception e) =>
      ui (fst r) = ui w ++ [UiError (extraction_message e)]
      /\ (calls (fst r) = calls w ++ [Subprocess cmd]
          \/ calls (fst r) = calls w ++ [Subprocess cmd; decode])
  | Raise StopException => False
  end.
Proof.
  cbv zeta. unfold extraction_run.
  set (cmd := extraction_command _ _).
  set (w1 := log_call (Subprocess cmd) (upload_written E upload w)).
  assert (H1 : calls w1 = calls w ++ [Subprocess cmd]) by reflexivity.
  assert (H2 : ui w1 = ui w) by reflexivity.
  destruct (conv_status _) as [rc| |e0].
  - destruct (conv_output _) as [b|]; destruct (decide (rc = 0)) as [Hrc|Hrc];
      try destruct (from_mp3 E _) as [e|ms]; cbn [fst snd];
      autorewrite with world; rewrite ?H1, ?H2, <- ?app_assoc, ?app_nil_r; auto.
  - cbn [fst snd]. autorewrite with world. rewrite H1, H2. auto.
  - cbn [fst snd]. autorewrite with world. rewrite H1, H2. auto.
Qed.

(** The logs and files after [transcribe_audio], by outcome. *)
Lemma transcription_run_logs (audio_file language : string) (w : World) :
  let r := transcription_run E audio_file language w in
  let request := Transcription "whisper-1" audio_file language in
  (forall q : string, q <> audio_file -> fs (fst r) !! q = fs w !! q)
  /\ fs (fst r) !! audio_file = None
  /\ match snd r with
     | Return _ => calls (fst r) = calls w ++ [request] /\ ui (fst r) = ui w
     | Raise (Exception e) =>
         ui (fst r) = ui w ++ [UiError (transcription_message e)]
         /\ (calls (fst r) = calls w \/ calls (fst r) = calls w ++ [request])
     | Raise StopException => False
     end.
Proof.
  cbv zeta. unfold transcription_run.
  destruct (fs w !! audio_file) as [b|] eqn:Hb.
  - destruct (transcriptions_create E _ _ _) as [e|t]; cbn [fst snd];
      autorewrite with world;
      (split; [intros q Hq; apply lookup_delete_ne; congruence|]);
      (split; [apply lookup_delete_eq|]); auto.
  - cbn [fst snd]. autorewrite with world. auto.
Qed.

End StageFacts.

(** C9. Whatever the upload's declared name, [extract_audio] writes its
    bytes to a temporary file [stem.mp4] and runs the converter on that file
    with [stem.mp3] as output: the first call it makes is that command, and
    the converter finds exactly the upload's bytes in its input file, since
    the outcome of the call is the one of converting them.  A call that
    returns returns exactly [stem.mp3] with the decoded length in seconds; a
    call that raises raises the converter's or the decoder's error.  The
    audio file holds what the converter wrote.  The declared name plays no
    part: two uploads with the same bytes are treated alike, so an mp3 or
    wav upload is converted too. *)
Theorem extract_audio_paths (E : Env) (upload : MediaUpload) (w : World) :
  exists stem : string,
    let video := stem +:+ ".mp4" in
    let audio := stem +:+ ".mp3" in
    let cmd := extraction_command video audio in
    let c := ffmpeg_convert E (Some (upload_data upload)) in
    let r := extract_audio E upload w in
    (exists rest : list call, calls_since w (fst r) = Subprocess cmd :: rest)
    /\ snd r
       = match conv_status c with
         | Exited rc =>
             if decide (rc = 0) then
               match from_mp3 E (match conv_output c with
                                 | Some b => Some b
                                 | None => fs w !! audio
                                 end) with
               | inr ms => Return (audio, seconds ms)
               | inl e => Raise (Exception e)
               end
             else Raise (Exception (CalledProcessError cmd rc))
         | ExecutableMissing => Raise (Exception (FileNotFoundError "ffmpeg"))
         | LaunchFailed e => Raise (Exception e)
         end
    /\ fs (fst r) !! video = None
    /\ fs (fst r) !! audio
       = match conv_status c, conv_output c with
         | Exited _, Some b => Some b
         | _, _ => fs w !! audio
         end
    /\ (forall name : string,
           extract_audio E {| upload_name := name; upload_data := upload_data upload |} w
           = extract_audio E upload w).
Proof.
  exists (temp_stem E w). cbv zeta.
  rewrite <- temp_video_path_stem. fold (temp_audio_path E w).
  rewrite extract_audio_run.
  destruct (extraction_run_fs E upload w) as (Hv & Ha & _).
  split; [|split; [|split; [exact Hv|split; [exact Ha|]]]].
  - pose proof (extraction_run_logs E upload w) as H. cbv zeta in H.
    unfold calls_since.
    destruct (snd (extraction_run E upload w)) as [[audio_path duration]|[e|]].
    + destruct H as (_ & -> & _). rewrite drop_app_length. eexists; reflexivity.
    + destruct H as (_ & [-> | ->]); rewrite drop_app_length; eexists; reflexivity.
    + destruct H.
  - unfold extraction_run.
    pose proof (upload_written_fs E upload w (temp_audio_path E w) (temp_paths_differ E w)) as Hw.
    destruct (conv_status _) as [rc| |e0]; [|reflexivity|reflexivity].
    destruct (decide (rc = 0)) as [Hrc|Hrc].
    + destruct (conv_output _) as [b|]; autorewrite with world;
        rewrite ?lookup_insert_eq, ?Hw;
        destruct (from_mp3 E _) as [e|ms]; reflexivity.
    + reflexivity.
  - intros name. rewrite extract_audio_run. reflexivity.
Qed.

(** X1. When [ffmpeg] cannot be run to completion with status 0,
    [extract_audio] raises the matching exception ([CalledProcessError] with
    the command line and the status, or [FileNotFoundError] for a missing
    executable), shows it once under its caption, and never consults the
    decoder. *)
Theorem extract_audio_conversion_failure
    (E : Env) (upload : MediaUpload) (w : World) (e : exception) :
  let cmd := extraction_command (temp_video_path E w) (temp_audio_path E w) in
  conversion_error cmd (conv_status (ffmpeg_convert E (Some (upload_data upload)))) = Some e ->
  snd (extract_audio E upload w) = Raise (Exception e)
  /\ calls_since w (fst (extract_audio E upload w)) = [Subprocess cmd]
  /\ ui_since w (fst (extract_audio E upload w)) = [UiError (extraction_message e)].
Proof.
  cbv zeta. intros He. rewrite extract_audio_run.
  unfold extraction_run, calls_since, ui_since.
  set (cmd := extraction_command _ _) in *.
  set (w1 := log_call (Subprocess cmd) (upload_written E upload w)).
  assert (H1 : calls w1 = calls w ++ [Subprocess cmd]) by reflexivity.
  assert (H2 : ui w1 = ui w) by reflexivity.
  destruct (conv_status _) as [rc| |e0]; cbn [conversion_error] in He.
  - destruct (decide (rc = 0)) as [Hrc|Hrc]; [discriminate He|].
    injection He as <-.
    destruct (conv_output _) as [b|]; cbn [fst snd]; autorewrite with world;
      rewrite H1, H2, !drop_app_length; auto.
  - injection He as <-. cbn [fst snd]. autorewrite with world.
    rewrite H1, H2, !drop_app_length. auto.
  - injection He as <-. cbn [fst snd]. autorewrite with world.
    rewrite H1, H2, !drop_app_length. auto.
Qed.

Lemma extract_audio_conversion_failure_witness :
  let cmd := extraction_command "/tmp/tmpabcdefgh.mp4" "/tmp/tmpabcdefgh.mp3" in
  snd (extract_audio sample_env malformed_upload sample_world)
  = Raise (Exception (CalledProcessError cmd 1))
  /\ calls_since sample_world (fst (extract_audio sample_env malformed_upload sample_world))
     = [Subprocess cmd]
  /\ ui_since sample_world (fst (extract_audio sample_env malformed_upload sample_world))
     = [UiError (extraction_message (CalledProcessError cmd 1))].
Proof.
  apply (extract_audio_conversion_failure sample_env malformed_upload sample_world
           (CalledProcessError
              (extraction_command "/tmp/tmpabcdefgh.mp4" "/tmp/tmpabcdefgh.mp3") 1)).
  vm_compute. reflexivity.
Defined.

(** X2. [extract_audio] never removes what the converter wrote: whenever the
    converter ran and left an output, that content is at [stem.mp3] when the
    call ends, whether it returns the path or raises. *)
Theorem extract_audio_keeps_converter_output
    (E : Env) (upload : MediaUpload) (w : World) (rc : Z) (b : bytes) :
  ffmpeg_convert E (Some (upload_data upload))
  = {| conv_status := Exited rc; conv_output := Some b |} ->
  fs (fst (extract_audio E upload w)) !! temp_audio_path E w = Some b.
Proof.
  intros Hc. rewrite extract_audio_run.
  destruct (extraction_run_fs E upload w) as (_ & Ha & _).
  rewrite Ha, Hc. reflexivity.
Qed.

Lemma extract_audio_keeps_converter_output_witness :
  fs (fst (extract_audio sample_env undecodable_upload sample_world))
    !! temp_audio_path sample_env sample_world = Some [Byte.x04].
Proof.
  apply (extract_audio_keeps_converter_output sample_env undecodable_upload sample_world 0).
  reflexivity.
Defined.

(** X3. [extract_audio] touches no file but its own two temporary paths:
    every other path holds after the call what it held before, on every
    outcome. *)
Theorem extract_audio_other_files_untouched
    (E : Env) (upload : MediaUpload) (w : World) (q : string) :
  q <> temp_video_path E w ->
  q <> temp_audio_path E w ->
  fs (fst (extract_audio E upload w)) !! q = fs w !! q.
Proof.
  intros Hv Ha. rewrite extract_audio_run.
  apply (extraction_run_fs E upload w); assumption.
Qed.

Lemma extract_audio_other_files_untouched_witness :
  fs (fst (extract_audio sample_env good_upload sample_world)) !! "/srv/evidence/notes.txt"
  = fs sample_world !! "/srv/evidence/notes.txt".
Proof.
  apply (extract_audio_other_files_untouched sample_env good_upload sample_world);
    vm_compute; discriminate.
Defined.

(** X4. When the converter exits with status 0 and leaves an output, the
    decoder decides: if it measures the output, [extract_audio] returns
    [stem.mp3] with the length in seconds and shows nothing; if it rejects
    the output, [extract_audio] raises the decoder's exception and shows it.
    Either way the converter and then the decoder are the only calls. *)
Theorem extract_audio_decoder_decides
    (E : Env) (upload : MediaUpload) (w : World) (b : bytes) :
  ffmpeg_convert E (Some (upload_data upload))
  = {| conv_status := Exited 0; conv_output := Some b |} ->
  let r := extract_audio E upload w in
  calls_since w (fst r)
  = [Subprocess (extraction_command (temp_video_path E w) (temp_audio_path E w));
     DecodeMp3 (temp_audio_path E w)]
  /\ match from_mp3 E (Some b) with
     | inr ms => snd r = Return (temp_audio_path E w, seconds ms) /\ ui_since w (fst r) = []
     | inl e =>
         snd r = Raise (Exception e) /\ ui_since w (fst r) = [UiError (extraction_message e)]
     end.
Proof.
  intros Hc. cbv zeta. rewrite extract_audio_run.
  unfold extraction_run, calls_since, ui_since. rewrite Hc.
  cbn [conv_status conv_output].
  set (cmd := extraction_command _ _).
  set (w1 := log_call (Subprocess cmd) (upload_written E upload w)).
  assert (H1 : calls w1 = calls w ++ [Subprocess cmd]) by reflexivity.
  assert (H2 : ui w1 = ui w) by reflexivity.
  rewrite decide_True by reflexivity.
  rewrite fs_with_fs, lookup_insert_eq.
  destruct (from_mp3 E (Some b)) as [e|ms]; cbn [fst snd]; autorewrite with world;
    rewrite H1, H2, <- ?app_assoc.
  - rewrite !drop_app_length. auto.
  - rewrite drop_app_length.
    rewrite <- (app_nil_r (ui w)) at 2. rewrite drop_app_length. auto.
Qed.

Lemma extract_audio_decoder_decides_witness :
  let r := extract_audio sample_env good_upload sample_world in
  snd r = Return ("/tmp/tmpabcdefgh.mp3", seconds 12345) /\ ui_since sample_world (fst r) = [].
Proof.
  apply (extract_audio_decoder_decides sample_env good_upload sample_world [Byte.x02]).
  reflexivity.
Defined.

(** X5. On a path that holds no file [transcribe_audio] raises
    [FileNotFoundError] for that path and shows it; the speech-recognition
    service is not called and nothing else changes. *)
Theorem transcribe_audio_missing_file
    (E : Env) (client : Client) (audio_file language : string) (w : World) :
  fs w !! audio_file = None ->
  transcribe_audio E client audio_file language w
  = (show (UiError (transcription_message (FileNotFoundError audio_file))) w,
     Raise (Exception (FileNotFoundError audio_file))).
Proof.
  intros Hf. rewrite transcribe_audio_run. unfold transcription_run.
  rewrite Hf. reflexivity.
Qed.

Lemma transcribe_audio_missing_file_witness :
  transcribe_audio sample_env sample_client "/tmp/gone.mp3" "ru" sample_world
  = (show (UiError (transcription_message (FileNotFoundError "/tmp/gone.mp3"))) sample_world,
     Raise (Exception (FileNotFoundError "/tmp/gone.mp3"))).
Proof.
  apply (transcribe_audio_missing_file sample_env sample_client "/tmp/gone.mp3" "ru"
           sample_world).
  vm_compute. reflexivity.
Defined.

(** X6. On a path that holds a file [transcribe_audio] makes exactly one
    request, for model whisper-1 with the file's content and the given
    language; it returns the service's text unchanged, or shows and re-raises
    the service's exception; no other file is touched. *)
Theorem transcribe_audio_present_file
    (E : Env) (client : Client) (audio_file language : string) (w : World) (b : bytes) :
  fs w !! audio_file = Some b ->
  let r := transcribe_audio E client audio_file language w in
  calls_since w (fst r) = [Transcription "whisper-1" audio_file language]
  /\ (forall q : string, q <> audio_file -> fs (fst r) !! q = fs w !! q)
  /\ match transcriptions_create E "whisper-1" b language with
     | inr t => snd r = Return t /\ ui_since w (fst r) = []
     | inl e =>
         snd r = Raise (Exception e)
         /\ ui_since w (fst r) = [UiError (transcription_message e)]
     end.
Proof.
  intros Hf. cbv zeta. rewrite transcribe_audio_run.
  destruct (transcription_run_logs E audio_file language w) as (Hq & _ & _).
  split; [|split; [exact Hq|]];
    unfold transcription_run, calls_since, ui_since; rewrite Hf;
    destruct (transcriptions_create E "whisper-1" b language) as [e|t];
    cbn [fst snd]; autorewrite with world; rewrite ?drop_app_length; auto.
  split; [reflexivity|].
  rewrite <- (app_nil_r (ui w)) at 2. apply drop_app_length.
Qed.

Lemma transcribe_audio_present_file_witness :
  let r := transcribe_audio sample_env sample_client "/srv/evidence/notes.txt" "en"
             sample_world in
  calls_since sample_world (fst r)
  = [Transcription "whisper-1" "/srv/evidence/notes.txt" "en"]
  /\ snd r = Return "I was at home.".
Proof.
  destruct (transcribe_audio_present_file sample_env sample_client
              "/srv/evidence/notes.txt" "en" sample_world [Byte.x41; Byte.x42])
    as (Hc & _ & Hr); [vm_compute; reflexivity|].
  cbv zeta. split; [exact Hc|apply Hr].
Defined.

(** * Further properties of the script *)

Section BlockFacts.

Variable E : Env.

Lemma branch_run_files (language : string) (n : party) (upload : MediaUpload) (s : Session) :
  let v := temp_video_path E (world s) in
  let a := temp_audio_path E (world s) in
  let x := extraction_run E upload (show (party_header n) (world s)) in
  let s' := branch_run E language n (Some upload) s in
  fs (world s') !! v = None
  /\ (forall q : string, q <> v -> q <> a -> fs (world s') !! q = fs (world s) !! q)
  /\ match snd x with
     | Return _ => fs (world s') !! a = None
     | Raise _ => fs (world s') !! a = fs (fst x) !! a
     end.
Proof.
  cbv zeta. unfold branch_run. fold (party_header n).
  set (w0 := show (party_header n) (world s)).
  change (temp_video_path E (world s)) with (temp_video_path E w0).
  change (temp_audio_path E (world s)) with (temp_audio_path E w0).
  pose proof (temp_paths_differ E w0) as Hav.
  destruct (extraction_run_fs E upload w0) as (Hv & _ & Hq).
  pose proof (extraction_run_logs E upload w0) as Hl. cbv zeta in Hl.
  change (fs w0) with (fs (world s)) in Hq.
  set (v := temp_video_path E w0) in *. set (a := temp_audio_path E w0) in *.
  destruct (extraction_run E upload w0) as [w1 [[p d]|[e|]]]; cbn [fst snd] in *;
    [|cbn [world with_world]; autorewrite with world; auto..].
  destruct Hl as (-> & _ & _).
  destruct (transcription_run_logs E a language (show (UiWrite (duration_line d)) w1))
    as (Tq & Ta & _).
  autorewrite with world in Tq.
  destruct (transcription_run E a language _) as [w2 [t|[e|]]]; cbn [fst snd] in *;
    cbn [world with_world]; rewrite ?analysis_world_fs; autorewrite with world.
  all: split; [rewrite Tq by congruence; exact Hv|].
  all: split; [intros q Hqv Hqa; rewrite Tq by congruence; apply Hq; assumption|exact Ta].
Qed.

Lemma branch_run_trace (language : string) (n : party) (upload : MediaUpload) (s : Session) :
  let w0 := show (party_header n) (world s) in
  let v := temp_video_path E (world s) in
  let a := temp_audio_path E (world s) in
  let s' := branch_run E language n (Some upload) s in
  (length (calls_since (world s) (world s')) <= 6)%nat
  /\ match extraction_run E upload w0 with
     | (w1, Raise (Exception e)) =>
         ui_since (world s) (world s')
         = [party_header n; UiError (extraction_message e); UiError (branch_message n e)]
     | (w1, Raise StopException) => False
     | (w1, Return (audio_path, duration)) =>
         match transcription_run E audio_path language
                 (show (UiWrite (duration_line duration)) w1) with
         | (w2, Raise (Exception e)) =>
             ui_since (world s) (world s')
             = [party_header n; UiWrite (duration_line duration);
                UiError (transcription_message e); UiError (branch_message n e)]
         | (w2, Raise StopException) => False
         | (w2, Return t) =>
             calls_since (world s) (world s')
             = [Subprocess (extraction_command v a);
                DecodeMp3 a;
                Transcription "whisper-1" a language;
                ChatCompletion (summarize_request t language);
                ChatCompletion (sequence_request t);
                ChatCompletion (key_facts_request t)]
         end
     end.
Proof.
  cbv zeta. unfold branch_run, calls_since, ui_since. fold (party_header n).
  set (w0 := show (party_header n) (world s)).
  change (temp_video_path E (world s)) with (temp_video_path E w0).
  change (temp_audio_path E (world s)) with (temp_audio_path E w0).
  pose proof (extraction_run_logs E upload w0) as Hl. cbv zeta in Hl.
  assert (Hc0 : calls w0 = calls (world s)) by reflexivity.
  assert (Hu0 : ui w0 = ui (world s) ++ [party_header n]) by reflexivity.
  set (v := temp_video_path E w0) in *. set (a := temp_audio_path E w0) in *.
  destruct (extraction_run E upload w0) as [w1 [[p d]|[e|]]]; cbn [fst snd] in Hl;
    [|destruct Hl as (Hu & [Hc|Hc]); cbn [world with_world]; autorewrite with world;
      rewrite Hu, Hc, Hu0, Hc0, <- ?app_assoc, !drop_app_length;
      (split; [cbn; lia|reflexivity])
     |destruct Hl].
  destruct Hl as (-> & Hc1 & Hu1).
  destruct (transcription_run_logs E a language (show (UiWrite (duration_line d)) w1))
    as (_ & _ & Tl).
  autorewrite with world in Tl.
  destruct (transcription_run E a language _) as [w2 [t|[e|]]]; cbn [fst snd] in Tl.
  - destruct Tl as (Hc2 & Hu2). cbn [world].
    rewrite analysis_world_calls, Hc2, Hc1, Hc0, <- !app_assoc, drop_app_length.
    split; [cbn; lia|reflexivity].
  - destruct Tl as (Hu2 & [Hc2|Hc2]); cbn [world with_world]; autorewrite with world;
      rewrite Hu2, Hc2, Hu1, Hc1, Hu0, Hc0, <- ?app_assoc, !drop_app_length;
      (split; [cbn; lia|reflexivity]).
  - destruct Tl.
Qed.

Lemma requests_differ (t language : string) :
  summarize_request t language <> sequence_request t
  /\ summarize_request t language <> key_facts_request t
  /\ sequence_request t <> key_facts_request t.
Proof.
  repeat split; intros H; apply (f_equal role_of) in H;
    cbv [role_of summarize_request sequence_request key_facts_request chat messages] in H;
    discriminate H.
Qed.

Lemma block_calls_distinct (v a language t : string) :
  NoDup [Subprocess (extraction_command v a);
         DecodeMp3 a;
         Transcription "whisper-1" a language;
         ChatCompletion (summarize_request t language);
         ChatCompletion (sequence_request t);
         ChatCompletion (key_facts_request t)].
Proof.
  destruct (requests_differ t language) as (H1 & H2 & H3).
  repeat (apply NoDup_cons; split); [..|apply NoDup_nil_2];
    rewrite ?not_elem_of_cons; repeat split;
    try apply not_elem_of_nil; try discriminate; congruence.
Qed.

(** The calls of a party's block, path by path. *)
Lemma branch_run_calls (language : string) (n : party) (upload : MediaUpload) (s : Session) :
  let w0 := show (party_header n) (world s) in
  let v := temp_video_path E (world s) in
  let a := temp_audio_path E (world s) in
  let s' := branch_run E language n (Some upload) s in
  let convert := Subprocess (extraction_command v a) in
  let decode := DecodeMp3 a in
  let transcribe := Transcription "whisper-1" a language in
  match extraction_run E upload w0 with
  | (w1, Raise _) =>
      calls_since (world s) (world s') = [convert]
      \/ calls_since (world s) (world s') = [convert; decode]
  | (w1, Return (audio_path, duration)) =>
      match transcription_run E audio_path language
              (show (UiWrite (duration_line duration)) w1) with
      | (w2, Raise _) =>
          calls_since (world s) (world s') = [convert; decode]
          \/ calls_since (world s) (world s') = [convert; decode; transcribe]
      | (w2, Return t) =>
          calls_since (world s) (world s')
          = [convert; decode; transcribe;
             ChatCompletion (summarize_request t language);
             ChatCompletion (sequence_request t);
             ChatCompletion (key_facts_request t)]
      end
  end.
Proof.
  cbv zeta. unfold branch_run, calls_since. fold (party_header n).
  set (w0 := show (party_header n) (world s)).
  change (temp_video_path E (world s)) with (temp_video_path E w0).
  change (temp_audio_path E (world s)) with (temp_audio_path E w0).
  pose proof (extraction_run_logs E upload w0) as Hl. cbv zeta in Hl.
  assert (Hc0 : calls w0 = calls (world s)) by reflexivity.
  set (v := temp_video_path E w0) in *. set (a := temp_audio_path E w0) in *.
  destruct (extraction_run E upload w0) as [w1 [[p d]|[e|]]]; cbn [fst snd] in Hl;
    [|destruct Hl as (_ & [Hc|Hc]); cbn [world with_world]; autorewrite with world;
      rewrite Hc, Hc0, !drop_app_length; auto
     |destruct Hl].
  destruct Hl as (-> & Hc1 & _).
  destruct (transcription_run_logs E a language (show (UiWrite (duration_line d)) w1))
    as (_ & _ & Tl).
  autorewrite with world in Tl.
  destruct (transcription_run E a language _) as [w2 [t|[e|]]]; cbn [fst snd] in Tl.
  - destruct Tl as (Hc2 & _). cbn [world].
    rewrite analysis_world_calls, Hc2, Hc1, Hc0, <- !app_assoc, drop_app_length.
    reflexivity.
  - destruct Tl as (_ & [Hc2|Hc2]); cbn [world with_world]; autorewrite with world;
      rewrite Hc2, Hc1, Hc0, <- ?app_assoc, !drop_app_length; auto.
  - destruct Tl.
Qed.

End BlockFacts.

(** X7. A party's processing block cleans up after itself when extraction
    succeeds: afterwards neither of its two temporary files exists, whether
    transcription returned or raised, and every other file is as before.
    When extraction raises, the video file is gone all the same, the other
    files are untouched, and the audio path is left as [extract_audio] left
    it. *)
Theorem party_block_files
    (E : Env) (client : Client) (language : string) (n : party)
    (upload : MediaUpload) (s : Session) :
  let v := temp_video_path E (world s) in
  let a := temp_audio_path E (world s) in
  let x := extract_audio E upload (show (party_header n) (world s)) in
  let s' := fst (process_party E client language n (Some upload) s) in
  fs (world s') !! v = None
  /\ (forall q : string, q <> v -> q <> a -> fs (world s') !! q = fs (world s) !! q)
  /\ match snd x with
     | Return _ => fs (world s') !! a = None
     | Raise _ => fs (world s') !! a = fs (fst x) !! a
     end.
Proof.
  cbv zeta. rewrite process_party_run, extract_audio_run. cbn [fst].
  apply branch_run_files.
Qed.

(** X8. A party's processing block makes at most six external calls and
    repeats none.  When extraction raises they are the converter alone or
    the converter and the decoder; when transcription raises, the converter,
    the decoder and at most the one transcription request; when both return
    they are exactly the converter, the decoder, the transcription of
    [stem.mp3] in the given language, and the summary, sequence and
    key-facts requests on the transcript, in this order. *)
Theorem party_block_calls
    (E : Env) (client : Client) (language : string) (n : party)
    (upload : MediaUpload) (s : Session) :
  let w0 := show (party_header n) (world s) in
  let a := temp_audio_path E (world s) in
  let s' := fst (process_party E client language n (Some upload) s) in
  let convert := Subprocess (extraction_command (temp_video_path E (world s)) a) in
  let decode := DecodeMp3 a in
  let transcribe := Transcription "whisper-1" a language in
  (length (calls_since (world s) (world s')) <= 6)%nat
  /\ NoDup (calls_since (world s) (world s'))
  /\ match extract_audio E upload w0 with
     | (w1, Return (audio_path, duration)) =>
         match transcribe_audio E client audio_path language
                 (show (UiWrite (duration_line duration)) w1) with
         | (w2, Return t) =>
             calls_since (world s) (world s')
             = [convert; decode; transcribe;
                ChatCompletion (summarize_request t language);
                ChatCompletion (sequence_request t);
                ChatCompletion (key_facts_request t)]
         | (w2, Raise _) =>
             calls_since (world s) (world s') = [convert; decode]
             \/ calls_since (world s) (world s') = [convert; decode; transcribe]
         end
     | (w1, Raise _) =>
         calls_since (world s) (world s') = [convert]
         \/ calls_since (world s) (world s') = [convert; decode]
     end.
Proof.
  cbv zeta. rewrite process_party_run, extract_audio_run. cbn [fst].
  pose proof (branch_run_calls E language n upload s) as Hcalls. cbv zeta in Hcalls.
  pose proof (block_calls_distinct (temp_video_path E (world s))
                (temp_audio_path E (world s)) language) as Hsix.
  assert (Hshort : forall l t,
             l `prefix_of` [Subprocess (extraction_command (temp_video_path E (world s))
                                          (temp_audio_path E (world s)));
                            DecodeMp3 (temp_audio_path E (world s));
                            Transcription "whisper-1" (temp_audio_path E (world s)) language;
                            ChatCompletion (summarize_request t language);
                            ChatCompletion (sequence_request t);
                            ChatCompletion (key_facts_request t)] ->
             (length l <= 6)%nat /\ NoDup l).
  { intros l t [k Hk]. split.
    - apply (f_equal length) in Hk. cbn [length] in Hk. rewrite length_app in Hk. lia.
    - specialize (Hsix t). rewrite Hk in Hsix. apply NoDup_app in Hsix. tauto. }
  set (l := calls_since _ _) in *.
  destruct (extraction_run E upload _) as [w1 [[p d]|e]].
  - rewrite transcribe_audio_run.
    destruct (transcription_run E p language _) as [w2 [t|e]].
    + destruct (Hshort l t) as [Hlen Hnodup]; [rewrite Hcalls; reflexivity|auto].
    + destruct (Hshort l "") as [Hlen Hnodup]; [|auto].
      destruct Hcalls as [-> | ->]; eexists; reflexivity.
  - destruct (Hshort l "") as [Hlen Hnodup]; [|auto].
    destruct Hcalls as [-> | ->]; eexists; reflexivity.
Qed.

(** X9. A stage failure is reported twice with the same exception: once by
    the stage under its own caption and once by the block under the party's
    caption.  After the party's heading (and, when extraction returned, the
    duration line) these two errors are all the block shows. *)
Theorem party_block_reports_twice
    (E : Env) (client : Client) (language : string) (n : party)
    (upload : MediaUpload) (s : Session) :
  let w0 := show (party_header n) (world s) in
  let s' := fst (process_party E client language n (Some upload) s) in
  match extract_audio E upload w0 with
  | (w1, Raise (Exception e)) =>
      ui_since (world s) (world s')
      = [party_header n; UiError (extraction_message e); UiError (branch_message n e)]
  | (w1, Raise StopException) => False
  | (w1, Return (audio_path, duration)) =>
      match transcribe_audio E client audio_path language
              (show (UiWrite (duration_line duration)) w1) with
      | (w2, Raise (Exception e)) =>
          ui_since (world s) (world s')
          = [party_header n; UiWrite (duration_line duration);
             UiError (transcription_message e); UiError (branch_message n e)]
      | (w2, Raise StopException) => False
      | (w2, Return t) => True
      end
  end.
Proof.
  cbv zeta. rewrite process_party_run, extract_audio_run. cbn [fst].
  destruct (branch_run_trace E language n upload s) as [_ Htrace].
  destruct (extraction_run E upload _) as [w1 [[p d]|[e|]]]; try exact Htrace.
  rewrite transcribe_audio_run.
  destruct (transcription_run E p language _) as [w2 [t|[e|]]];
    [exact I|exact Htrace..].
Qed.

Section ScriptFacts.

Variable E : Env.

Lemma offers_refl (w : World) : offers w w [].
Proof. exists []. rewrite app_nil_r. auto. Qed.

Lemma offers_trans (w1 w2 w3 : World) (l1 l2 : list ui_element) :
  offers w1 w2 l1 -> offers w2 w3 l2 -> offers w1 w3 (l1 ++ l2).
Proof.
  intros (u1 & H1 & F1) (u2 & H2 & F2). exists (u1 ++ u2).
  rewrite H2, H1, app_assoc, List.filter_app, F1, F2. auto.
Qed.

Lemma offers_grown (w w' : World) (u : list ui_element) (l : list ui_element) :
  ui w' = ui w ++ u -> List.filter is_download u = l -> offers w w' l.
Proof. intros H F. exists u. auto. Qed.

Lemma offers_none_trans (w1 w2 w3 : World) :
  offers w1 w2 [] -> offers w2 w3 [] -> offers w1 w3 [].
Proof. intros H1 H2. apply (offers_trans w1 w2 w3 [] [] H1 H2). Qed.

Lemma offers_same (w w' : World) : ui w' = ui w -> offers w w' [].
Proof. intros H. exists []. rewrite app_nil_r. auto. Qed.

Lemma offers_downloads (w w' : World) (l : list ui_element) :
  offers w w' l -> downloads_since w w' = l.
Proof.
  intros (u & H & F). unfold downloads_since, ui_since.
  rewrite H, drop_app_length. exact F.
Qed.

Lemma extraction_run_offers (upload : MediaUpload) (w : World) :
  offers w (fst (extraction_run E upload w)) [].
Proof.
  pose proof (extraction_run_logs E upload w) as H. cbv zeta in H.
  destruct (extraction_run E upload w) as [w1 [[p d]|[e|]]]; cbn [fst snd] in *.
  - apply offers_same, H.
  - destruct H as [H _]. apply (offers_grown _ _ _ _ H). reflexivity.
  - destruct H.
Qed.

Lemma transcription_run_offers (audio_file language : string) (w : World) :
  offers w (fst (transcription_run E audio_file language w)) [].
Proof.
  destruct (transcription_run_logs E audio_file language w) as (_ & _ & H).
  destruct (transcription_run E audio_file language w) as [w1 [t|[e|]]];
    cbn [fst snd] in *.
  - apply offers_same, H.
  - destruct H as [H _]. apply (offers_grown _ _ _ _ H). reflexivity.
  - destruct H.
Qed.

Lemma soft_world_offers (caption : string) (request : chat_request) (w : World) :
  offers w (soft_world E caption request w) [].
Proof.
  apply (offers_grown _ _ _ _ (soft_world_ui E caption request w)).
  destruct (generate E request); reflexivity.
Qed.

Lemma show_offers (u : ui_element) (w : World) :
  is_download u = false -> offers w (show u w) [].
Proof.
  intros Hu. apply (offers_grown w (show u w) [u]); [reflexivity|].
  cbn [List.filter]. rewrite Hu. reflexivity.
Qed.

Lemma branch_run_offers (language : string) (n : party)
    (uploaded : option MediaUpload) (s : Session) :
  offers (world s) (world (branch_run E language n uploaded s)) [].
Proof.
  unfold branch_run.
  destruct uploaded as [upload|]; [|apply show_offers; reflexivity].
  set (w0 := show _ (world s)).
  assert (H0 : offers (world s) w0 []) by (apply show_offers; reflexivity).
  pose proof (extraction_run_offers upload w0) as Hx.
  destruct (extraction_run E upload w0) as [w1 [[a d]|[e|]]]; cbn [fst] in Hx.
  - pose proof (transcription_run_offers a language (show (UiWrite (duration_line d)) w1))
      as Ht.
    assert (H1 : offers (world s) (show (UiWrite (duration_line d)) w1) []).
    { eapply offers_none_trans; [|apply show_offers; reflexivity].
      eapply offers_none_trans; eassumption. }
    destruct (transcription_run E a language _) as [w2 [t|[e|]]]; cbn [fst] in Ht;
      cbn [world with_world].
    + unfold analysis_world.
      repeat (eapply offers_none_trans; [|apply soft_world_offers]).
      eapply offers_none_trans; eassumption.
    + eapply offers_none_trans; [|apply show_offers; reflexivity].
      eapply offers_none_trans; eassumption.
    + eapply offers_none_trans; eassumption.
  - cbn [world with_world].
    eapply offers_none_trans; [|apply show_offers; reflexivity].
    eapply offers_none_trans; eassumption.
  - cbn [world with_world]. eapply offers_none_trans; eassumption.
Qed.

Lemma shown_offers (case_number : string) (n : party) (s : Session) :
  offers (world s) (world (shown case_number n s))
    (offered case_number n (transcription (party_vars n (locals s)))).
Proof.
  unfold shown, offered.
  destruct (PyStr.truthy _); [|apply offers_refl].
  cbn [world with_world]. eapply offers_grown.
  - autorewrite with world. rewrite <- !app_assoc. reflexivity.
  - reflexivity.
Qed.

Lemma compare_run_offers (s : Session) :
  offers (world s) (world (compare_run E s)) [].
Proof.
  unfold compare_run.
  destruct (PyStr.truthy _ && PyStr.truthy _); [|apply offers_refl].
  cbn [world].
  repeat (eapply offers_none_trans; [|apply show_offers; reflexivity]).
  repeat (eapply offers_none_trans; [|apply soft_world_offers]).
  apply show_offers. reflexivity.
Qed.

Lemma branches_run_offers (case_number : string) (inp : Inputs) (s : Session) :
  let s' := branches_run E case_number inp s in
  offers (world s) (world s')
    (offered case_number Party1 (transcription (party1 (locals s')))
     ++ offered case_number Party2 (transcription (party2 (locals s')))).
Proof.
  cbv zeta. unfold branches_run.
  set (lang := language_code (language inp)).
  set (s0 := reset_vars s).
  set (s1 := branch_run E lang Party1 (uploaded_file_1 inp) s0).
  set (s2 := branch_run E lang Party2 (uploaded_file_2 inp) s1).
  set (s3 := shown case_number Party1 s2).
  destruct (shown_quiet case_number Party2 s3) as [_ L4].
  destruct (shown_quiet case_number Party1 s2) as [_ L3]. fold s3 in L3.
  rewrite L4, L3.
  pose proof (shown_offers case_number Party2 s3) as O4.
  pose proof (shown_offers case_number Party1 s2) as O3. fold s3 in O3.
  rewrite L3 in O4. cbn [party_vars] in O3, O4.
  pose proof (branch_run_offers lang Party2 (uploaded_file_2 inp) s1) as O2. fold s2 in O2.
  pose proof (branch_run_offers lang Party1 (uploaded_file_1 inp) s0) as O1. fold s1 in O1.
  change (world s) with (world s0).
  pose proof (offers_trans _ _ _ _ _ (offers_none_trans _ _ _ O1 O2)
                (offers_trans _ _ _ _ _ O3 O4)) as H.
  exact H.
Qed.

End ScriptFacts.

Module CaseNumberInjective.
Import PyStr CaseNumberFacts.

Lemma append_inj_length (s s' t t' : string) :
  String.length s = String.length s' -> s +:+ t = s' +:+ t' -> s = s' /\ t = t'.
Proof.
  revert s'. induction s as [|a s IH]; intros [|a' s'] Hl H; try discriminate Hl.
  - auto.
  - rewrite !PyStrFacts.append_cons in H. injection H as -> H.
    injection Hl as Hl. destruct (IH s' Hl H) as [-> ->]. auto.
Qed.

Lemma digits_value_below (width bound : nat) (k : N) :
  forallb (fun i => N.eqb (digits_value (zero_padded width (N.of_nat i))) (N.of_nat i))
          (seq 0 bound) = true ->
  (k < N.of_nat bound)%N ->
  digits_value (zero_padded width k) = k.
Proof.
  intros Hall Hk. rewrite forallb_forall in Hall.
  specialize (Hall (N.to_nat k)). rewrite N2Nat.id in Hall.
  apply N.eqb_eq, Hall, in_seq. lia.
Qed.

Lemma digits_value_two (k : N) : (k < 100)%N -> digits_value (zero_padded 2 k) = k.
Proof. apply (digits_value_below 2 100). vm_compute. reflexivity. Qed.

Lemma digits_value_four (k : N) : (k < 10000)%N -> digits_value (zero_padded 4 k) = k.
Proof. apply (digits_value_below 4 10000). vm_compute. reflexivity. Qed.

Lemma zero_padded_two_inj (j k : N) :
  (j < 100)%N -> (k < 100)%N -> zero_padded 2 j = zero_padded 2 k -> j = k.
Proof.
  intros Hj Hk H. apply (f_equal digits_value) in H.
  rewrite !digits_value_two in H by assumption. exact H.
Qed.

Lemma zero_padded_four_inj (j k : N) :
  (j < 10000)%N -> (k < 10000)%N -> zero_padded 4 j = zero_padded 4 k -> j = k.
Proof.
  intros Hj Hk H. apply (f_equal digits_value) in H.
  rewrite !digits_value_four in H by assumption. exact H.
Qed.

Lemma strftime_Ymd_inj (d1 d2 : datetime) :
  valid_datetime d1 -> valid_datetime d2 ->
  strftime_Ymd d1 = strftime_Ymd d2 ->
  year d1 = year d2 /\ month d1 = month d2 /\ day d1 = day d2.
Proof.
  intros (Hy1 & Hm1 & Hd1 & _) (Hy2 & Hm2 & Hd2 & _) H. unfold strftime_Ymd in H.
  apply append_inj_length in H as [Hy H];
    [|rewrite (proj1 (zero_padded_four (year d1) ltac:(lia))),
              (proj1 (zero_padded_four (year d2) ltac:(lia))); reflexivity].
  apply append_inj_length in H as [Hm Hd];
    [|rewrite (proj1 (zero_padded_two (month d1) ltac:(lia))),
              (proj1 (zero_padded_two (month d2) ltac:(lia))); reflexivity].
  split; [apply zero_padded_four_inj; (lia || assumption)|].
  split; apply zero_padded_two_inj; (lia || assumption).
Qed.

Lemma strftime_HMS_inj (d1 d2 : datetime) :
  valid_datetime d1 -> valid_datetime d2 ->
  strftime_HMS d1 = strftime_HMS d2 ->
  hour d1 = hour d2 /\ minute d1 = minute d2 /\ second d1 = second d2.
Proof.
  intros (_ & _ & _ & Hh1 & Hm1 & Hs1) (_ & _ & _ & Hh2 & Hm2 & Hs2) H.
  unfold strftime_HMS in H.
  apply append_inj_length in H as [Hh H];
    [|rewrite (proj1 (zero_padded_two (hour d1) ltac:(lia))),
              (proj1 (zero_padded_two (hour d2) ltac:(lia))); reflexivity].
  apply append_inj_length in H as [Hm Hs];
    [|rewrite (proj1 (zero_padded_two (minute d1) ltac:(lia))),
              (proj1 (zero_padded_two (minute d2) ltac:(lia))); reflexivity].
  repeat split; apply zero_padded_two_inj; (lia || assumption).
Qed.

End CaseNumberInjective.

Lemma offers_all (l : list ui_element) (w : World) :
  List.filter is_download l = [] -> offers w (show_all l w) [].
Proof. intros H. apply (offers_grown w (show_all l w) l); [apply ui_show_all|exact H]. Qed.

Lemma form_shown_logs (E : Env) (w : World) :
  calls (form_shown E w) = calls w ++ [Subprocess probe_command]
  /\ ui (form_shown E w) = ui w ++ [page_style; page_header] ++ page_form E
  /\ fs (form_shown E w) = fs w.
Proof.
  unfold form_shown, probed. autorewrite with world.
  rewrite <- !app_assoc. auto.
Qed.

(** X10. Without the API key the script stops after the probe: following the
    style sheet and the header it shows the initialisation error with the
    [KeyError] and the request to enter the key, and ends normally; whatever
    was uploaded and whether or not the start button was pressed, no upload
    is read, no further call is made, no file is written and no variable is
    set. *)
Theorem missing_api_key_stops_before_processing (E : Env) (inp : Inputs) (w : World) :
  probe_ok E = true ->
  secrets E "openai_api_key" = None ->
  run_main E inp w
  = (start_session
       (show (UiError "⚠️ Введите API ключ OpenAI в боковой панели для начала работы")
          (show (UiError ("Ошибка инициализации OpenAI API: "
                            +:+ str (KeyError "openai_api_key")))
             (show page_header
                (log_call (Subprocess probe_command) (show page_style w))))),
     Return tt).
Proof.
  intros Hp Hk. rewrite run_main_cases. unfold main_run.
  rewrite (probe_ok_returns E Hp), Hp, Hk. reflexivity.
Qed.

Lemma missing_api_key_stops_before_processing_witness :
  let s := fst (run_main keyless_env (both_uploads good_upload good_upload) sample_world) in
  fs (world s) = fs sample_world
  /\ calls (world s) = [Subprocess probe_command]
  /\ locals s = fresh_locals.
Proof.
  cbv zeta.
  rewrite (missing_api_key_stops_before_processing keyless_env
             (both_uploads good_upload good_upload) sample_world eq_refl eq_refl).
  repeat split.
Defined.

(** X11. Until the start button is pressed a run only probes the converter,
    builds the client and renders the fixed page: the style sheet, the
    header, the form (two upload fields, case number, language choice,
    notice, start button) and the footer.  The uploads are not read, no call
    beyond the probe is made, no file is written and no variable is set. *)
Theorem nothing_processed_before_start (E : Env) (inp : Inputs) (w : World) (key : string) :
  probe_ok E = true ->
  secrets E "openai_api_key" = Some key ->
  start_pressed inp = false ->
  let s := fst (run_main E inp w) in
  snd (run_main E inp w) = Return tt
  /\ ui_since w (world s) = [page_style; page_header] ++ page_form E ++ page_footer
  /\ calls_since w (world s) = [Subprocess probe_command]
  /\ fs (world s) = fs w
  /\ locals s = fresh_locals.
Proof.
  intros Hp Hk Hs. cbv zeta. rewrite run_main_cases. unfold main_run.
  rewrite (probe_ok_returns E Hp), Hp, Hk, Hs. cbn [fst snd world locals start_session].
  destruct (form_shown_logs E w) as (Hc & Hu & Hf).
  unfold ui_since, calls_since. autorewrite with world.
  rewrite Hc, Hu, Hf, <- !app_assoc, !drop_app_length. auto.
Qed.

Lemma nothing_processed_before_start_witness :
  let s := fst (run_main sample_env idle_inputs sample_world) in
  snd (run_main sample_env idle_inputs sample_world) = Return tt
  /\ ui_since sample_world (world s)
     = [page_style; page_header] ++ page_form sample_env ++ page_footer
  /\ calls_since sample_world (world s) = [Subprocess probe_command]
  /\ fs (world s) = fs sample_world
  /\ locals s = fresh_locals.
Proof.
  apply (nothing_processed_before_start sample_env idle_inputs sample_world "sk-sample");
    reflexivity.
Defined.

(** X12. Only an error of launching the probe that [check_ffmpeg] does not
    catch leaves the script as an exception.  Once [check_ffmpeg] has
    returned, no exception of a stage or a service leaves the script: the
    run ends normally when the probe succeeded, whatever the converter, the
    decoder and the services do, and ends by [st.stop()] when it failed. *)
Theorem main_propagates_only_probe_errors (E : Env) (inp : Inputs) (w : World) :
  snd (run_main E inp w)
  = match probe_escapes E with
    | Some e => Raise (Exception e)
    | None => if probe_ok E then Return tt else Raise StopException
    end.
Proof.
  rewrite run_main_cases. unfold main_run.
  destruct (probe_escapes E); [reflexivity|].
  destruct (probe_ok E); [|reflexivity].
  destruct (secrets E "openai_api_key"); [|reflexivity].
  destruct (start_pressed inp); reflexivity.
Qed.

(** X13. A started run without uploads adds to the fixed page only the two
    "not loaded" warnings, party 1 then party 2, between the form and the
    footer: no call beyond the probe, no file written, every variable unset,
    no results block and no comparison. *)
Theorem no_uploads_only_warnings (E : Env) (inp : Inputs) (w : World) (key : string) :
  probe_ok E = true ->
  secrets E "openai_api_key" = Some key ->
  start_pressed inp = true ->
  uploaded_file_1 inp = None ->
  uploaded_file_2 inp = None ->
  let s := fst (run_main E inp w) in
  snd (run_main E inp w) = Return tt
  /\ ui_since w (world s)
     = [page_style; page_header] ++ page_form E
       ++ [not_loaded_warning Party1; not_loaded_warning Party2] ++ page_footer
  /\ calls_since w (world s) = [Subprocess probe_command]
  /\ fs (world s) = fs w
  /\ locals s = fresh_locals.
Proof.
  intros Hp Hk Hs H1 H2. cbv zeta. rewrite run_main_cases. unfold main_run.
  rewrite (probe_ok_returns E Hp), Hp, Hk, Hs.
  assert (Hrun : compare_run E
                   (branches_run E (generate_case_number E) inp
                      (start_session (form_shown E w)))
                 = start_session
                     (show (not_loaded_warning Party2)
                        (show (not_loaded_warning Party1) (form_shown E w)))).
  { unfold branches_run. rewrite H1, H2. reflexivity. }
  rewrite Hrun. cbn [fst snd world locals start_session with_world].
  destruct (form_shown_logs E w) as (Hc & Hu & Hf).
  unfold ui_since, calls_since. autorewrite with world.
  rewrite Hc, Hu, Hf, <- !app_assoc, !drop_app_length. auto.
Qed.

Lemma no_uploads_only_warnings_witness :
  let s := fst (run_main sample_env no_uploads sample_world) in
  snd (run_main sample_env no_uploads sample_world) = Return tt
  /\ ui_since sample_world (world s)
     = [page_style; page_header] ++ page_form sample_env
       ++ [not_loaded_warning Party1; not_loaded_warning Party2] ++ page_footer
  /\ calls_since sample_world (world s) = [Subprocess probe_command]
  /\ fs (world s) = fs sample_world
  /\ locals s = fresh_locals.
Proof.
  apply (no_uploads_only_warnings sample_env no_uploads sample_world "sk-sample");
    reflexivity.
Defined.

(** X14. The case number determines the instant: two valid instants with the
    same case number agree in year, month, day, hour, minute and second, so
    runs started in different seconds get different case numbers. *)
Theorem case_number_identifies_instant (E1 E2 : Env) :
  valid_datetime (datetime_now E1) ->
  valid_datetime (datetime_now E2) ->
  generate_case_number E1 = generate_case_number E2 ->
  datetime_now E1 = datetime_now E2.
Proof.
  intros V1 V2 H. unfold generate_case_number in H. cbv zeta in H.
  apply (inj (String.app "М-")) in H.
  apply CaseNumberInjective.append_inj_length in H as [Hd Ht];
    [|rewrite (proj1 (CaseNumberFacts.strftime_Ymd_digits _ V1)),
              (proj1 (CaseNumberFacts.strftime_Ymd_digits _ V2)); reflexivity].
  apply (inj (String.app "-")) in Ht.
  destruct (CaseNumberInjective.strftime_Ymd_inj _ _ V1 V2 Hd) as (Hy & Hm & Hday).
  destruct (CaseNumberInjective.strftime_HMS_inj _ _ V1 V2 Ht) as (Hh & Hmin & Hs).
  destruct (datetime_now E1), (datetime_now E2). cbn in *. congruence.
Qed.

Lemma case_number_identifies_instant_witness :
  datetime_now sample_env = datetime_now keyless_env.
Proof.
  apply (case_number_identifies_instant sample_env keyless_env).
  - unfold valid_datetime. cbn. lia.
  - unfold valid_datetime. cbn. lia.
  - reflexivity.
Defined.

(** X15. A run offers a transcript download exactly for the parties whose
    transcript is non-empty, party 1 first: the button's data is the
    transcript and its file name is [Протокол_лицо<n>_<case number>.txt];
    a party that was skipped or whose branch failed is offered nothing. *)
Theorem downloads_match_transcripts (E : Env) (inp : Inputs) (w : World) :
  let s := fst (run_main E inp w) in
  downloads_since w (world s)
  = offered (generate_case_number E) Party1 (transcription (party1 (locals s)))
    ++ offered (generate_case_number E) Party2 (transcription (party2 (locals s))).
Proof.
  cbv zeta. apply offers_downloads.
  rewrite run_main_cases. unfold main_run.
  assert (H0 : offers w (probed w) []).
  { unfold probed. apply (offers_none_trans w (show page_style w));
      [apply show_offers; reflexivity|apply offers_same; reflexivity]. }
  set (w1 := form_shown E w).
  assert (H1 : offers w w1 []).
  { unfold w1, form_shown. apply (offers_none_trans w (probed w)); [exact H0|].
    apply (offers_none_trans _ (show page_header (probed w)));
      [apply show_offers; reflexivity|apply offers_all; reflexivity]. }
  destruct (probe_escapes E) as [e|]; [exact H0|].
  destruct (probe_ok E);
    [destruct (secrets E "openai_api_key") as [key|]; [destruct (start_pressed inp)|]|];
    cbn [fst]; cbn [world locals start_session fresh_locals party1 party2
                    unset_party transcription offered PyStr.truthy app with_world].
  - set (s5 := branches_run E (generate_case_number E) inp (start_session w1)).
    destruct (compare_run_spec E s5) as (P1 & P2 & _).
    rewrite P1, P2.
    pose proof (branches_run_offers E (generate_case_number E) inp (start_session w1)) as HB.
    cbv zeta in HB. fold s5 in HB. cbn [world start_session] in HB.
    pose proof (offers_trans _ _ _ _ _
                  (offers_trans _ _ _ _ _ (offers_trans _ _ _ _ _ H1 HB)
                     (compare_run_offers E s5))
                  (offers_all page_footer (world (compare_run E s5)) eq_refl)) as H.
    rewrite !app_nil_r in H. exact H.
  - eapply offers_none_trans; [exact H1|]. apply offers_all. reflexivity.
  - apply (offers_none_trans w (probed w)); [exact H0|].
    apply (offers_none_trans _ (show page_header (probed w)));
      [apply show_offers; reflexivity|].
    eapply offers_none_trans; apply show_offers; reflexivity.
  - apply (offers_none_trans w (probed w)); [exact H0|].
    apply show_offers; reflexivity.
Qed.

Section FileFacts.

Variable E : Env.

Lemma branch_run_other_files (language : string) (n : party)
    (uploaded : option MediaUpload) (s : Session) (q : string) :
  (forall w' : World, q <> temp_video_path E w') ->
  (forall w' : World, q <> temp_audio_path E w') ->
  fs (world (branch_run E language n uploaded s)) !! q = fs (world s) !! q.
Proof.
  intros Hv Ha. destruct uploaded as [upload|]; [|reflexivity].
  apply (branch_run_files E language n upload s); [apply Hv|apply Ha].
Qed.

Lemma shown_fs (case_number : string) (n : party) (s : Session) :
  fs (world (shown case_number n s)) = fs (world s).
Proof. unfold shown. destruct (PyStr.truthy _); reflexivity. Qed.

Lemma compare_run_fs (s : Session) : fs (world (compare_run E s)) = fs (world s).
Proof.
  unfold compare_run. destruct (PyStr.truthy _ && PyStr.truthy _); [|reflexivity].
  cbn [world]. autorewrite with world. rewrite !soft_world_fs. reflexivity.
Qed.

End FileFacts.

(** X16. A run touches no file but its own temporary ones: a path that is
    neither a temporary video name nor a temporary audio name holds after the
    run what it held before, whatever was uploaded and however the stages
    ended. *)
Theorem only_temporary_files_touched (E : Env) (inp : Inputs) (w : World) (q : string) :
  (forall w' : World, q <> temp_video_path E w') ->
  (forall w' : World, q <> temp_audio_path E w') ->
  fs (world (fst (run_main E inp w))) !! q = fs w !! q.
Proof.
  intros Hv Ha. rewrite run_main_cases. unfold main_run.
  pose proof (proj2 (proj2 (form_shown_logs E w))) as Hf.
  destruct (probe_escapes E) as [e|]; [reflexivity|].
  destruct (probe_ok E); [|reflexivity].
  destruct (secrets E "openai_api_key") as [key|]; [|reflexivity].
  destruct (start_pressed inp);
    [|cbn [fst world start_session]; rewrite fs_show_all, Hf; reflexivity].
  cbn [fst world with_world]. rewrite fs_show_all, compare_run_fs. unfold branches_run.
  rewrite !shown_fs, !branch_run_other_files by assumption.
  cbn [world reset_vars start_session]. rewrite Hf. reflexivity.
Qed.

Lemma sample_temp_video_path (w' : World) :
  temp_video_path sample_env w'
  = "/tmp/tmp" +:+ random_name sample_env (tmp_drawn w') +:+ ".mp4".
Proof. reflexivity. Qed.

Lemma only_temporary_files_touched_witness :
  fs (world (fst (run_main sample_env (both_uploads undecodable_upload good_upload)
                    sample_world)))
    !! "/srv/evidence/notes.txt"
  = fs sample_world !! "/srv/evidence/notes.txt".
Proof.
  apply (only_temporary_files_touched sample_env
           (both_uploads undecodable_upload good_upload) sample_world).
  - intros w' H. rewrite sample_temp_video_path in H. discriminate H.
  - intros w' H. pose proof (temp_video_path_stem sample_env w') as Hs.
    rewrite sample_temp_video_path in Hs. unfold temp_audio_path in H.
    destruct (temp_stem sample_env w') as [|c1 [|c2 stem]].
    + discriminate H.
    + discriminate H.
    + rewrite !PyStrFacts.append_cons in Hs, H.
      injection H as <- <- _. discriminate Hs.
Defined.
